(** * JupyterLab console tracker token and file-browser extension

    A shallow embedding of

      - packages/console/src/tracker.ts   (the console tracker token), and
      - the file-browser extension module (plugins [factory], [browser],
        [menu], their activation functions, the command set, the menus).

    The extension is glue code: everything it does is a call into an object
    owned by the host application.  The embedding therefore keeps two things
    apart:

      - what the code READS from the host (property reads, the answers of
        host queries, and what the widget methods the commands forward to
        return or throw) is taken from a [HostEnv], a snapshot of the host
        at the time a synchronous piece of code runs;
      - what the code DOES (constructor calls, method calls, property
        assignments) is appended, in program order, to a log of [Event]s.

    Host calls are recorded, not interpreted: the host's reaction to a call
    (for instance running a command that [commands.execute] names) is the
    host's business.  Functions the code hands to the host (command bodies,
    DOM listeners, promise continuations, signal slots) are closures; they
    are represented by the constructors of [Callback], each carrying the
    variables the closure captures, and [run] gives their bodies. *)

From Stdlib Require Import String List ZArith Bool Lia Permutation.
Import ListNotations.
Open Scope string_scope.
Open Scope list_scope.

(* ================================================================= *)
(** ** Object references and JavaScript values *)

(** An object is known by a reference.  [Host n] is an object that existed
    before the code ran; [Fresh n] is the n-th object that came into being
    while it ran (built by [new], or returned by a host call). *)
Inductive Ref : Type :=
| Host (n : nat)
| Fresh (n : nat).

Definition Ref_eq_dec (a b : Ref) : {a = b} + {a <> b}.
Proof. decide equality; apply Nat.eq_dec. Defined.

(** What a command body or a callback returns. *)
Inductive Value : Type :=
| VUndefined
| VObj (r : Ref).

(** A field that may be absent ([undefined]), [null], or hold a value. *)
Inductive Nullable (A : Type) : Type :=
| Absent
| Null
| Present (a : A).
Arguments Absent {A}.
Arguments Null {A}.
Arguments Present {A} a.

(** [s || ''] on a value of type [string | undefined]: the empty string and
    [undefined] are falsy. *)
Definition str_or_empty (s : option string) : string :=
  match s with
  | Some v => if String.eqb v "" then "" else v
  | None => ""
  end.

(** Truthiness of a string. *)
Definition truthy_str (s : string) : bool := negb (String.eqb s "").

(** [o || d] on a value of type [object | undefined]. *)
Definition obj_or {A : Type} (o : option A) (d : A) : A :=
  match o with
  | Some v => v
  | None => d
  end.

Inductive JsError : Type :=
| TypeError (msg : string).

(* ================================================================= *)
(** ** Tokens and plugins *)

(** A token is either built in the module at hand with [new Token(name)], or
    imported from another package. *)
Inductive Token : Type :=
| NewToken (name : string)
| Imported (package symbol : string).

Definition token_name (t : Token) : option string :=
  match t with
  | NewToken n => Some n
  | Imported _ _ => None
  end.

(** packages/console/src/tracker.ts *)
Definition IConsoleTracker : Token :=
  NewToken "@jupyterlab/console:IConsoleTracker".

(** The tokens the file-browser extension imports. *)
Definition IFileBrowserFactory : Token :=
  Imported "@jupyterlab/filebrowser" "IFileBrowserFactory".
Definition ILayoutRestorer : Token :=
  Imported "@jupyterlab/application" "ILayoutRestorer".
Definition IDocumentManager : Token :=
  Imported "@jupyterlab/docmanager" "IDocumentManager".
Definition IStateDB : Token :=
  Imported "@jupyterlab/coreutils" "IStateDB".
Definition IMainMenu : Token :=
  Imported "@jupyterlab/apputils" "IMainMenu".

(** The three activation functions of the extension. *)
Inductive Activate : Type :=
| ActivateBrowser
| ActivateFactory
| ActivateMenu.

(** [JupyterLabPlugin<T>]: [requires], [provides] and [autoStart] are
    optional fields. *)
Record JupyterLabPlugin : Type := {
  activate : Activate;
  id : string;
  provides : option Token;
  requires : option (list Token);
  autoStart : option bool
}.

Definition browser : JupyterLabPlugin := {|
  activate := ActivateBrowser;
  id := "@jupyterlab/filebrowser-extension:browser";
  provides := None;
  requires := Some [IFileBrowserFactory; ILayoutRestorer];
  autoStart := Some true
|}.

Definition factory : JupyterLabPlugin := {|
  activate := ActivateFactory;
  id := "@jupyterlab/filebrowser-extension:factory";
  provides := Some IFileBrowserFactory;
  requires := Some [IDocumentManager; IStateDB];
  autoStart := None
|}.

Definition menu : JupyterLabPlugin := {|
  activate := ActivateMenu;
  id := "@jupyterlab/filebrowser-extension:menu";
  provides := None;
  requires := Some [IMainMenu];
  autoStart := Some true
|}.

(** The file browser namespace token. *)
Definition namespace : string := "filebrowser".

(** The default export of the extension. *)
Definition plugins : list JupyterLabPlugin := [factory; browser; menu].

(** What a source module exports: token values, interface names, and the
    plugins of its default export. *)
Record SourceModule : Type := {
  module_path : string;
  exported_tokens : list Token;
  exported_interfaces : list string;
  exported_plugins : list JupyterLabPlugin
}.

Definition tracker_ts : SourceModule := {|
  module_path := "packages/console/src/tracker.ts";
  exported_tokens := [IConsoleTracker];
  exported_interfaces := ["IConsoleTracker"];
  exported_plugins := []
|}.

Definition filebrowser_extension : SourceModule := {|
  module_path := "filebrowser-extension";
  exported_tokens := [];
  exported_interfaces := [];
  exported_plugins := plugins
|}.

Definition repository : list SourceModule :=
  [tracker_ts; filebrowser_extension].

(* ================================================================= *)
(** ** The command IDs used by the file browser plugin *)

Module CommandIDs.
Definition copy := "filebrowser:copy".
Definition cut := "filebrowser:cut".
Definition del := "filebrowser:delete".
Definition download := "filebrowser:download".
Definition duplicate := "filebrowser:duplicate".
Definition hideBrowser := "filebrowser:hide-main".
Definition open := "filebrowser:open".
Definition paste := "filebrowser:paste".
Definition rename := "filebrowser:rename".
Definition showBrowser := "filebrowser:activate-main".
Definition shutdown := "filebrowser:shutdown".
Definition toggleBrowser := "filebrowser:toggle-main".
Definition createLauncher := "filebrowser:create-main-launcher".
End CommandIDs.

(** The thirteen command bodies of [addCommands], named after their IDs. *)
Inductive Cmd : Type :=
| CDel | CCopy | CCut | CDownload | CDuplicate | CHideBrowser | COpen
| CPaste | CRename | CShowBrowser | CShutdown | CToggleBrowser
| CCreateLauncher.

(* ================================================================= *)
(** ** Host objects as the code sees them *)

(** The [JupyterLab] application object: the three properties read. *)
Record JupyterLab : Type := {
  app_commands : Ref;
  app_shell : Ref;
  app_restored : Ref
}.

(** The injected document manager and its [registry] property. *)
Record DocumentManager : Type := {
  dm_ref : Ref;
  dm_registry : Ref
}.

(** [IFileBrowserFactory.IOptions]; every field is optional. *)
Record IOptions : Type := {
  opt_commands : option Ref;
  opt_driveName : option string;
  opt_state : Nullable Ref
}.

(** The object literal [{ }], the default of the [options] parameter. *)
Definition empty_options : IOptions := {|
  opt_commands := None;
  opt_driveName := None;
  opt_state := Absent
|}.

(** An entry of the directory listing ([Contents.IModel]). *)
Record Item : Type := {
  item_type : string;
  item_path : string
}.

(** A widget factory of the document registry. *)
Record WidgetFactory : Type := {
  name : string
}.

Record MouseEvent : Type := {
  clientX : Z;
  clientY : Z
}.

(** The methods of the [FileBrowser] widget the commands call. *)
Inductive WidgetMethod : Type :=
| MDelete | MCopy | MCut | MDownload | MDuplicate | MPaste | MRename
| MShutdownKernels | MSelectedItems.

Inductive SignalName : Type :=
| PathChanged
| LayoutModified.

(** Arguments of [commands.execute]: [void 0], or an object of string
    fields. *)
Definition Args : Type := option (list (string * string)).

(** Functions handed to the host, with the variables they capture. *)
Inductive Callback : Type :=
(** [() => createLauncher(commands, widget)] (toolbar button) *)
| LauncherOnClick (commands widget : Ref)
(** [(event: MouseEvent) => { ... createContextMenu ... }] *)
| ContextMenuListener (widget commands registry : Ref)
(** [layout => { if (layout.fresh) ... }] *)
| OnRestored (commands : Ref)
(** [() => { const { model } = browser; ... maybeCreate(); }] *)
| OnAllRestored (app : JupyterLab) (browser : Ref)
(** [() => { maybeCreate(); }] *)
| OnLayoutModified (app : JupyterLab) (model browser : Ref)
(** [() => createLauncher(commands, browser)] *)
| MaybeCreateThen (commands browser : Ref)
(** [(launcher: Launcher) => { model.pathChanged.connect(...); ... }] *)
| LauncherCreated (model : Ref)
(** [() => { launcher.cwd = model.path; }] *)
| UpdateCwd (launcher : option Ref) (model : Ref)
(** the [execute] function of a command *)
| CommandExecute (c : Cmd) (app : JupyterLab) (tracker browser : Ref).

(** The options object passed to [commands.addCommand]. *)
Record CommandOptions : Type := {
  execute : Callback;
  iconClass : option string;
  label : option string;
  mnemonic : option Z
}.

(** The options object passed to [menu.addItem]. *)
Inductive MenuItem : Type :=
| CommandItem (command : string) (args : Args)
| Separator
| SubmenuItem (submenu : Ref).

(** What a host method answers: the value it returns, or the exception it
    throws. *)
Inductive Answer : Type :=
| Returns (v : Value)
| Raises (e : JsError).

(** The host calls the code makes.  A trailing [res] is the object the
    call returns.  [WidgetCall] is a widget method called for the object
    it returns (the iterator of [selectedItems()]); [WidgetInvoke] is a
    widget method a command forwards to, whose answer, a value or an
    exception, goes back to the caller of the command as it is. *)
Inductive Event : Type :=
| NewInstanceTracker (ns : string) (res : Ref)
| NewFileBrowserModel (manager : Ref) (driveName : string)
                      (state : option Ref) (res : Ref)
| NewFileBrowser (wid : string) (model commands : Ref) (res : Ref)
| NewToolbarButton (className : string) (onClick : Callback) (res : Ref)
| NewMenu (commands : Ref) (res : Ref)
| AddClass (w : Ref) (cls : string)
| ToolbarInsertItem (w : Ref) (index : Z) (nm : string) (item : Ref)
| GetElementsByClassName (w : Ref) (cls : string)
| AddEventListener (node : Ref) (type : string) (listener : Callback)
| PreventDefault (ev : MouseEvent)
| PathForClick (w : Ref) (ev : MouseEvent)
| MenuOpen (m : Ref) (x y : Z)
| TrackerAdd (tracker w : Ref)
| RestorerAdd (restorer w : Ref) (nm : string)
| SetTitleLabel (w : Ref) (lbl : string)
| AddToLeftArea (shell w : Ref) (rank : Z)
| AddMenu (mainMenu m : Ref) (rank : Z)
| PromiseThen (promise : Ref) (cb : Callback) (res : Ref)
| PromiseAll (promises : list Ref) (res : Ref)
| SignalConnect (owner : Ref) (sig : SignalName) (slot : Callback)
                (thisArg : option Ref)
| ShellIsEmpty (shell : Ref) (area : string)
| AddCommand (commands : Ref) (cid : string) (opts : CommandOptions)
| Execute (commands : Ref) (cid : string) (args : Args) (res : Ref)
| WidgetCall (w : Ref) (m : WidgetMethod) (res : Ref)
| WidgetInvoke (w : Ref) (m : WidgetMethod)
| ModelCd (model : Ref) (path : string)
| CollapseLeft (shell : Ref)
| ActivateById (shell : Ref) (wid : string)
| MenuAddItem (m : Ref) (item : MenuItem)
| PreferredWidgetFactories (registry : Ref) (path : string)
| SetCwd (launcher : Ref) (path : string).

(** What the host answers when the code reads a property or asks a query. *)
Record HostEnv : Type := {
  (** [tracker.currentWidget] *)
  currentWidget : Ref -> option Ref;
  (** [widget.isHidden] *)
  isHidden : Ref -> bool;
  (** [widget.id] *)
  widget_id : Ref -> string;
  (** [widget.model] *)
  widget_model : Ref -> Ref;
  (** [model.path] *)
  model_path : Ref -> string;
  (** [model.restored] *)
  model_restored : Ref -> Ref;
  (** [widget.selectedItems()] *)
  selectedItems : Ref -> list Item;
  (** [widget.delete()], [widget.copy()], ...: the answer of the methods
      the commands forward to *)
  widget_answer : Ref -> WidgetMethod -> Answer;
  (** [widget.pathForClick(event)]: a path or [undefined] *)
  pathForClick : Ref -> MouseEvent -> option string;
  (** [registry.preferredWidgetFactories(path)] *)
  preferredWidgetFactories : Ref -> string -> list WidgetFactory;
  (** [widget.node.getElementsByClassName(cls)] *)
  elementsByClassName : Ref -> string -> list Ref;
  (** [shell.isEmpty(area)] *)
  shell_isEmpty : Ref -> string -> bool
}.

(* ================================================================= *)
(** ** The monad: fresh references, the event log, exceptions *)

Record State : Type := {
  next : nat;
  log : list Event
}.

Inductive Outcome (A : Type) : Type :=
| Ok (a : A)
| Throw (e : JsError).
Arguments Ok {A} a.
Arguments Throw {A} e.

Definition M (A : Type) : Type := State -> Outcome A * State.

Definition ret {A : Type} (a : A) : M A := fun s => (Ok a, s).

Definition bind {A B : Type} (c : M A) (k : A -> M B) : M B :=
  fun s =>
    match c s with
    | (Ok a, s') => k a s'
    | (Throw e, s') => (Throw e, s')
    end.

Notation "x <- c ;; k" := (bind c (fun x => k))
  (at level 61, c at next level, right associativity).
Notation "c ;;; k" := (bind c (fun _ => k))
  (at level 61, right associativity).

Definition throw {A : Type} (e : JsError) : M A := fun s => (Throw e, s).

Definition emit (e : Event) : M unit :=
  fun s => (Ok tt, {| next := next s; log := log s ++ [e] |}).

Definition fresh : M Ref :=
  fun s => (Ok (Fresh (next s)), {| next := S (next s); log := log s |}).

(** A host call that returns a new object. *)
Definition call (e : Ref -> Event) : M Ref :=
  r <- fresh ;; emit (e r) ;;; ret r.

(** [each(iter, fn)] of [@phosphor/algorithm] and [Array.prototype.forEach]. *)
Fixpoint each {A : Type} (l : list A) (fn : A -> M unit) : M unit :=
  match l with
  | [] => ret tt
  | x :: l' => fn x ;;; each l' fn
  end.

(** The events a computation appends, and its outcome. *)
Definition events_of {A : Type} (c : M A) (s : State) : list Event :=
  skipn (length (log s)) (log (snd (c s))).

Definition outcome_of {A : Type} (c : M A) (s : State) : Outcome A :=
  fst (c s).

(* ================================================================= *)
(** ** The file-browser extension *)

Section Extension.

  (** The host at the time the code runs. *)
Variable H : HostEnv.

  (** Create a launcher for a given filebrowser widget. *)
Definition createLauncher (commands browser : Ref) : M Ref :=
    let model := widget_model H browser in
    p <- call (Execute commands "launcher:create"
                       (Some [("cwd", model_path H model)])) ;;
    call (PromiseThen p (LauncherCreated model)).

  (** Create a top level menu for the file browser. *)
Definition createMenu (app : JupyterLab) : M Ref :=
    let commands := app_commands app in
    menu <- call (NewMenu commands) ;;
    emit (SetTitleLabel menu "File") ;;;
    each [ CommandIDs.createLauncher;
           "docmanager:save";
           "docmanager:save-as";
           "docmanager:rename";
           "docmanager:restore-checkpoint";
           "docmanager:clone";
           "docmanager:close";
           "docmanager:close-all-files" ]
         (fun command => emit (MenuAddItem menu (CommandItem command None))) ;;;
    emit (MenuAddItem menu Separator) ;;;
    emit (MenuAddItem menu (CommandItem "settingeditor:open" None)) ;;;
    ret menu.

  (** Create a context menu for the file browser listing. *)
Definition createContextMenu (path : string) (commands registry : Ref)
    : M Ref :=
    menu <- call (NewMenu commands) ;;
    emit (MenuAddItem menu (CommandItem CommandIDs.open None)) ;;;
    emit (PreferredWidgetFactories registry path) ;;;
    let factories := map name (preferredWidgetFactories H registry path) in
    (if truthy_str path && (1 <? length factories)%nat then
       let command := "docmanager:open" in
       openWith <- call (NewMenu commands) ;;
       emit (SetTitleLabel openWith "Open With...") ;;;
       each factories
            (fun factory =>
               emit (MenuAddItem openWith
                       (CommandItem command
                          (Some [("factory", factory); ("path", path)])))) ;;;
       emit (MenuAddItem menu (SubmenuItem openWith))
     else ret tt) ;;;
    emit (MenuAddItem menu (CommandItem CommandIDs.rename None)) ;;;
    emit (MenuAddItem menu (CommandItem CommandIDs.del None)) ;;;
    emit (MenuAddItem menu (CommandItem CommandIDs.duplicate None)) ;;;
    emit (MenuAddItem menu (CommandItem CommandIDs.cut None)) ;;;
    emit (MenuAddItem menu (CommandItem CommandIDs.copy None)) ;;;
    emit (MenuAddItem menu (CommandItem CommandIDs.paste None)) ;;;
    emit (MenuAddItem menu (CommandItem CommandIDs.download None)) ;;;
    emit (MenuAddItem menu (CommandItem CommandIDs.shutdown None)) ;;;
    ret menu.

  (** The shape shared by the tracker-backed commands that forward to one
      widget method:
      [const widget = tracker.currentWidget;
       if (!widget) { return; }
       return widget.method();]
      The body has no [try]: what the method returns is returned, what it
      throws is thrown. *)
Definition forward (tracker : Ref) (m : WidgetMethod) : M Value :=
    match currentWidget H tracker with
    | None => ret VUndefined
    | Some widget =>
        emit (WidgetInvoke widget m) ;;;
        match widget_answer H widget m with
        | Returns v => ret v
        | Raises e => throw e
        end
    end.

  (** The [execute] bodies registered by [addCommands]. *)
Definition execute_body (c : Cmd) (app : JupyterLab)
             (tracker browser : Ref) : M Value :=
    let commands := app_commands app in
    match c with
    | CDel => forward tracker MDelete
    | CCopy => forward tracker MCopy
    | CCut => forward tracker MCut
    | CDownload => forward tracker MDownload
    | CDuplicate => forward tracker MDuplicate
    | CHideBrowser =>
        (if negb (isHidden H browser)
         then emit (CollapseLeft (app_shell app))
         else ret tt) ;;;
        ret VUndefined
    | COpen =>
        match currentWidget H tracker with
        | None => ret VUndefined
        | Some widget =>
            _ <- call (WidgetCall widget MSelectedItems) ;;
            each (selectedItems H widget)
                 (fun item =>
                    if String.eqb (item_type item) "directory"
                    then emit (ModelCd (widget_model H widget)
                                       (item_path item))
                    else
                      _ <- call (Execute commands "docmanager:open"
                                   (Some [("path", item_path item)])) ;;
                      ret tt) ;;;
            ret VUndefined
        end
    | CPaste => forward tracker MPaste
    | CRename => forward tracker MRename
    | CShowBrowser =>
        emit (ActivateById (app_shell app) (widget_id H browser)) ;;;
        ret VUndefined
    | CShutdown => forward tracker MShutdownKernels
    | CToggleBrowser =>
        if isHidden H browser
        then r <- call (Execute commands CommandIDs.showBrowser None) ;;
             ret (VObj r)
        else r <- call (Execute commands CommandIDs.hideBrowser None) ;;
             ret (VObj r)
    | CCreateLauncher =>
        r <- createLauncher commands browser ;; ret (VObj r)
    end.

  (** Add the main file browser commands to the application's command
      registry. *)
Definition addCommands (app : JupyterLab) (tracker browser : Ref)
    : M unit :=
    let commands := app_commands app in
    let exec c := CommandExecute c app tracker browser in
    emit (AddCommand commands CommandIDs.del
            {| execute := exec CDel;
               iconClass := Some "jp-MaterialIcon jp-CloseIcon";
               label := Some "Delete"; mnemonic := Some 0%Z |}) ;;;
    emit (AddCommand commands CommandIDs.copy
            {| execute := exec CCopy;
               iconClass := Some "jp-MaterialIcon jp-CopyIcon";
               label := Some "Copy"; mnemonic := Some 0%Z |}) ;;;
    emit (AddCommand commands CommandIDs.cut
            {| execute := exec CCut;
               iconClass := Some "jp-MaterialIcon jp-CutIcon";
               label := Some "Cut"; mnemonic := None |}) ;;;
    emit (AddCommand commands CommandIDs.download
            {| execute := exec CDownload;
               iconClass := Some "jp-MaterialIcon jp-DownloadIcon";
               label := Some "Download"; mnemonic := None |}) ;;;
    emit (AddCommand commands CommandIDs.duplicate
            {| execute := exec CDuplicate;
               iconClass := Some "jp-MaterialIcon jp-CopyIcon";
               label := Some "Duplicate"; mnemonic := None |}) ;;;
    emit (AddCommand commands CommandIDs.hideBrowser
            {| execute := exec CHideBrowser;
               iconClass := None; label := None; mnemonic := None |}) ;;;
    emit (AddCommand commands CommandIDs.open
            {| execute := exec COpen;
               iconClass := Some "jp-MaterialIcon jp-OpenFolderIcon";
               label := Some "Open"; mnemonic := Some 0%Z |}) ;;;
    emit (AddCommand commands CommandIDs.paste
            {| execute := exec CPaste;
               iconClass := Some "jp-MaterialIcon jp-PasteIcon";
               label := Some "Paste"; mnemonic := Some 0%Z |}) ;;;
    emit (AddCommand commands CommandIDs.rename
            {| execute := exec CRename;
               iconClass := Some "jp-MaterialIcon jp-EditIcon";
               label := Some "Rename"; mnemonic := Some 0%Z |}) ;;;
    emit (AddCommand commands CommandIDs.showBrowser
            {| execute := exec CShowBrowser;
               iconClass := None; label := None; mnemonic := None |}) ;;;
    emit (AddCommand commands CommandIDs.shutdown
            {| execute := exec CShutdown;
               iconClass := Some "jp-MaterialIcon jp-StopIcon";
               label := Some "Shutdown Kernel"; mnemonic := None |}) ;;;
    emit (AddCommand commands CommandIDs.toggleBrowser
            {| execute := exec CToggleBrowser;
               iconClass := None; label := None; mnemonic := None |}) ;;;
    emit (AddCommand commands CommandIDs.createLauncher
            {| execute := exec CCreateLauncher;
               iconClass := None; label := Some "New..."; mnemonic := None |}).

  (** [createFileBrowser], the closure built in [activateFactory]; it
      captures [app], [docManager], [state] and [tracker].  [options] is
      [None] when the caller passes no second argument. *)
Definition createFileBrowser (app : JupyterLab) (docManager : DocumentManager)
             (state tracker : Ref) (wid : string) (options : option IOptions)
    : M Ref :=
    let commands := app_commands app in
    let options := match options with
                   | Some o => o
                   | None => empty_options
                   end in
    model <- call (NewFileBrowserModel
                     (dm_ref docManager)
                     (str_or_empty (opt_driveName options))
                     (match opt_state options with
                      | Null => None
                      | Present s => Some s
                      | Absent => Some state
                      end)) ;;
    widget <- call (NewFileBrowser wid model
                      (obj_or (opt_commands options) commands)) ;;
    let registry := dm_registry docManager in
    (* Add a launcher toolbar item. *)
    launcher <- call (NewToolbarButton "jp-AddIcon"
                        (LauncherOnClick commands widget)) ;;
    emit (AddClass launcher "jp-MaterialIcon") ;;;
    emit (ToolbarInsertItem widget 0 "launch" launcher) ;;;
    (* Add a context menu handler to the file browser's directory listing. *)
    emit (GetElementsByClassName widget "jp-DirListing-content") ;;;
    match hd_error (elementsByClassName H widget "jp-DirListing-content") with
    | None => throw (TypeError "node is undefined")
    | Some node =>
        emit (AddEventListener node "contextmenu"
                (ContextMenuListener widget commands registry)) ;;;
        (* Track the newly created file browser. *)
        emit (TrackerAdd tracker widget) ;;;
        ret widget
    end.

  (** The object [activateFactory] returns. *)
Record FileBrowserFactory : Type := {
    fb_createFileBrowser : string -> option IOptions -> M Ref;
    defaultBrowser : Ref;
    tracker : Ref
  }.

  (** Activate the file browser factory provider. *)
Definition activateFactory (app : JupyterLab) (docManager : DocumentManager)
             (state : Ref) : M FileBrowserFactory :=
    tracker <- call (NewInstanceTracker namespace) ;;
    let createFileBrowser := createFileBrowser app docManager state tracker in
    defaultBrowser <- createFileBrowser "filebrowser" None ;;
    ret {| fb_createFileBrowser := createFileBrowser;
           defaultBrowser := defaultBrowser;
           tracker := tracker |}.

  (** [maybeCreate], the function nested in the continuation of
      [Promise.all] in [activateBrowser]. *)
Definition maybeCreate (app : JupyterLab) (model browser : Ref) : M unit :=
    emit (ShellIsEmpty (app_shell app) "main") ;;;
    if shell_isEmpty H (app_shell app) "main"
    then _ <- call (PromiseThen (model_restored H model)
                      (MaybeCreateThen (app_commands app) browser)) ;;
         ret tt
    else ret tt.

  (** Activate the default file browser in the sidebar. *)
Definition activateBrowser (app : JupyterLab) (factory : FileBrowserFactory)
             (restorer : Ref) : M unit :=
    let browser := defaultBrowser factory in
    let commands := app_commands app in
    let shell := app_shell app in
    emit (RestorerAdd restorer browser namespace) ;;;
    addCommands app (tracker factory) browser ;;;
    emit (SetTitleLabel browser "Files") ;;;
    emit (AddToLeftArea shell browser 100) ;;;
    _ <- call (PromiseThen (app_restored app) (OnRestored commands)) ;;
    all <- call (PromiseAll [app_restored app;
                             model_restored H (widget_model H browser)]) ;;
    _ <- call (PromiseThen all (OnAllRestored app browser)) ;;
    ret tt.

  (** Activate the default file browser menu in the main menu. *)
Definition activateMenu (app : JupyterLab) (mainMenu : Ref) : M unit :=
    menu <- createMenu app ;;
    emit (AddMenu mainMenu menu 1).

  (** What the host passes to a callback when it calls it. *)
Inductive Arg : Type :=
  | ANone
  | ALayout (fresh_layout : bool)
  | AObj (r : Ref)
  | AMouse (ev : MouseEvent).

  (** The bodies of the closures. *)
Definition run (cb : Callback) (arg : Arg) : M Value :=
    match cb with
    | LauncherOnClick commands widget =>
        r <- createLauncher commands widget ;; ret (VObj r)
    | ContextMenuListener widget commands registry =>
        match arg with
        | AMouse event =>
            emit (PreventDefault event) ;;;
            emit (PathForClick widget event) ;;;
            let path := str_or_empty (pathForClick H widget event) in
            menu <- createContextMenu path commands registry ;;
            emit (MenuOpen menu (clientX event) (clientY event)) ;;;
            ret VUndefined
        | _ => throw (TypeError "event.preventDefault is not a function")
        end
    | OnRestored commands =>
        match arg with
        | ALayout is_fresh =>
            (if is_fresh
             then _ <- call (Execute commands CommandIDs.showBrowser None) ;;
                  ret tt
             else ret tt) ;;;
            ret VUndefined
        | ANone => throw (TypeError "layout is undefined")
        | _ => ret VUndefined (* [layout.fresh] is [undefined], falsy *)
        end
    | OnAllRestored app browser =>
        let model := widget_model H browser in
        emit (SignalConnect (app_shell app) LayoutModified
                (OnLayoutModified app model browser) None) ;;;
        maybeCreate app model browser ;;;
        ret VUndefined
    | OnLayoutModified app model browser =>
        maybeCreate app model browser ;;;
        ret VUndefined
    | MaybeCreateThen commands browser =>
        r <- createLauncher commands browser ;; ret (VObj r)
    | LauncherCreated model =>
        match arg with
        | AObj launcher =>
            emit (SignalConnect model PathChanged
                    (UpdateCwd (Some launcher) model) (Some launcher)) ;;;
            ret (VObj launcher)
        | _ =>
            emit (SignalConnect model PathChanged
                    (UpdateCwd None model) None) ;;;
            ret VUndefined
        end
    | UpdateCwd launcher model =>
        match launcher with
        | Some l => emit (SetCwd l (model_path H model)) ;;; ret VUndefined
        | None => throw (TypeError "launcher is undefined")
        end
    | CommandExecute c app tracker browser =>
        execute_body c app tracker browser
    end.

End Extension.

(* ================================================================= *)
(** ** Reading a log *)

Definition Ref_eqb (a b : Ref) : bool :=
  if Ref_eq_dec a b then true else false.
Arguments Ref_eqb : simpl never.

(** The items a menu holds after the calls of a log: [Menu.addItem] appends. *)
Definition menu_items (m : Ref) (evs : list Event) : list MenuItem :=
  flat_map (fun e =>
              match e with
              | MenuAddItem m' item => if Ref_eqb m m' then [item] else []
              | _ => []
              end) evs.

(** The title label of a widget after the calls of a log: the last
    assignment to [title.label], if any. *)
Definition title_label (w : Ref) (evs : list Event) : option string :=
  fold_left (fun acc e =>
               match e with
               | SetTitleLabel w' lbl => if Ref_eqb w w' then Some lbl else acc
               | _ => acc
               end) evs None.

Definition is_submenu (item : MenuItem) : bool :=
  match item with
  | SubmenuItem _ => true
  | _ => false
  end.

(** The commands [addCommand] registered, in registration order. *)
Definition registered (evs : list Event) : list (string * CommandOptions) :=
  flat_map (fun e =>
              match e with
              | AddCommand _ cid opts => [(cid, opts)]
              | _ => []
              end) evs.

(** The object a call is made on ([None] for a constructor call and for the
    static [Promise.all]). *)
Definition receiver (e : Event) : option Ref :=
  match e with
  | NewInstanceTracker _ _ | NewFileBrowserModel _ _ _ _
  | NewFileBrowser _ _ _ _ | NewToolbarButton _ _ _ | NewMenu _ _
  | PromiseAll _ _ | PreventDefault _ => None
  | AddClass w _ | ToolbarInsertItem w _ _ _ | GetElementsByClassName w _
  | PathForClick w _ | SetTitleLabel w _ | WidgetCall w _ _
  | WidgetInvoke w _ => Some w
  | AddEventListener node _ _ => Some node
  | MenuOpen m _ _ | MenuAddItem m _ => Some m
  | TrackerAdd t _ => Some t
  | RestorerAdd r _ _ => Some r
  | AddToLeftArea sh _ _ | ShellIsEmpty sh _ | CollapseLeft sh
  | ActivateById sh _ => Some sh
  | AddMenu mm _ _ => Some mm
  | PromiseThen p _ _ => Some p
  | SignalConnect o _ _ _ => Some o
  | AddCommand c _ _ | Execute c _ _ _ => Some c
  | ModelCd m _ => Some m
  | PreferredWidgetFactories r _ => Some r
  | SetCwd l _ => Some l
  end.

(** The commands whose body starts with [tracker.currentWidget]. *)
Definition tracker_backed : list Cmd :=
  [CCopy; CCut; CDel; CDownload; CDuplicate; COpen; CPaste; CRename;
   CShutdown].

(** A call that operates on a file browser widget or its model. *)
Definition is_widget_operation (e : Event) : bool :=
  match e with
  | WidgetCall _ _ _ | WidgetInvoke _ _ | ModelCd _ _ => true
  | _ => false
  end.

(** A call that operates on files: a widget or model operation, or the
    execution of a command. *)
Definition is_file_operation (e : Event) : bool :=
  match e with
  | WidgetCall _ _ _ | WidgetInvoke _ _ | ModelCd _ _
  | Execute _ _ _ _ => true
  | _ => false
  end.

(** The kinds of object the extension deals with; the last four are the
    host services. *)
Inductive Kind : Type :=
| KInstanceTracker | KFileBrowserModel | KFileBrowser | KToolbarButton
| KMenu
| KCommandRegistry | KLayoutRestorer | KDocumentManager | KStateDB.

Definition is_service (k : Kind) : bool :=
  match k with
  | KCommandRegistry | KLayoutRestorer | KDocumentManager | KStateDB => true
  | _ => false
  end.

(** What a [new] expression builds. *)
Definition constructs (e : Event) : option Kind :=
  match e with
  | NewInstanceTracker _ _ => Some KInstanceTracker
  | NewFileBrowserModel _ _ _ _ => Some KFileBrowserModel
  | NewFileBrowser _ _ _ _ => Some KFileBrowser
  | NewToolbarButton _ _ _ => Some KToolbarButton
  | NewMenu _ _ => Some KMenu
  | _ => None
  end.

(** The services a closure captures. *)
Definition captured (cb : Callback) : list (Kind * Ref) :=
  match cb with
  | LauncherOnClick commands _ => [(KCommandRegistry, commands)]
  | ContextMenuListener _ commands _ => [(KCommandRegistry, commands)]
  | OnRestored commands => [(KCommandRegistry, commands)]
  | OnAllRestored app _ => [(KCommandRegistry, app_commands app)]
  | OnLayoutModified app _ _ => [(KCommandRegistry, app_commands app)]
  | MaybeCreateThen commands _ => [(KCommandRegistry, commands)]
  | LauncherCreated _ => []
  | UpdateCwd _ _ => []
  | CommandExecute _ app _ _ => [(KCommandRegistry, app_commands app)]
  end.

(** The places of a call where a command registry, a layout restorer, a
    document manager or a state database is used: as the object called, as
    an argument, or inside a closure passed along. *)
Definition services_used (e : Event) : list (Kind * Ref) :=
  match e with
  | NewFileBrowserModel manager _ state _ =>
      (KDocumentManager, manager)
      :: match state with
         | Some s => [(KStateDB, s)]
         | None => []
         end
  | NewFileBrowser _ _ commands _ => [(KCommandRegistry, commands)]
  | NewMenu commands _ => [(KCommandRegistry, commands)]
  | NewToolbarButton _ cb _ => captured cb
  | AddEventListener _ _ cb => captured cb
  | PromiseThen _ cb _ => captured cb
  | SignalConnect _ _ cb _ => captured cb
  | RestorerAdd restorer _ _ => [(KLayoutRestorer, restorer)]
  | AddCommand commands _ opts =>
      (KCommandRegistry, commands) :: captured (execute opts)
  | Execute commands _ _ _ => [(KCommandRegistry, commands)]
  | _ => []
  end.

(** The services the host injects: [app.commands], the [docManager] and
    [state] arguments of [activateFactory], the [restorer] argument of
    [activateBrowser], and what a caller passes in [options]. *)
Definition injected (app : JupyterLab) (docManager : DocumentManager)
           (state restorer : Ref) (options : option IOptions)
           (u : Kind * Ref) : Prop :=
  match u with
  | (KCommandRegistry, r) =>
      r = app_commands app
      \/ exists o, options = Some o /\ opt_commands o = Some r
  | (KDocumentManager, r) => r = dm_ref docManager
  | (KStateDB, r) =>
      r = state \/ exists o, options = Some o /\ opt_state o = Present r
  | (KLayoutRestorer, r) => r = restorer
  | _ => False
  end.

(** A call builds no service and uses only injected ones. *)
Definition supplied (app : JupyterLab) (docManager : DocumentManager)
           (state restorer : Ref) (options : option IOptions)
           (e : Event) : Prop :=
  (forall k, constructs e = Some k -> is_service k = false)
  /\ Forall (injected app docManager state restorer options)
            (services_used e).

Definition host_supplied (app : JupyterLab) (docManager : DocumentManager)
           (state restorer : Ref) (options : option IOptions)
           (evs : list Event) : Prop :=
  Forall (supplied app docManager state restorer options) evs.

(** The items of the context menu that come after the optional submenu. *)
Definition context_tail : list string :=
  [ CommandIDs.rename; CommandIDs.del; CommandIDs.duplicate; CommandIDs.cut;
    CommandIDs.copy; CommandIDs.paste; CommandIDs.download;
    CommandIDs.shutdown ].

(** The items of the 'Open With...' submenu for the given factory names. *)
Definition open_with_items (path : string) (factories : list string)
  : list MenuItem :=
  map (fun factory =>
         CommandItem "docmanager:open"
                     (Some [("factory", factory); ("path", path)]))
      factories.

(** Every computation only appends to the log: the property [P] of the
    events a computation appends. *)
Definition appends {A : Type} (P : Event -> Prop) (c : M A) : Prop :=
  forall s, exists evs,
    log (snd (c s)) = log s ++ evs /\ Forall P evs.

(* ================================================================= *)
(** ** A concrete host, for running the code on examples *)

(** No file browser has the focus; the registry knows two factories for
    every path; every widget has a directory listing node. *)
Definition example_host : HostEnv := {|
  currentWidget := fun _ => None;
  isHidden := fun _ => false;
  widget_id := fun _ => "filebrowser";
  widget_model := fun _ => Host 10;
  model_path := fun _ => "notebooks";
  model_restored := fun _ => Host 11;
  selectedItems := fun _ =>
    [ {| item_type := "directory"; item_path := "notebooks/data" |};
      {| item_type := "notebook"; item_path := "notebooks/a.ipynb" |} ];
  widget_answer := fun _ m =>
    match m with
    | MCopy | MCut | MDownload => Returns VUndefined
    | _ => Returns (VObj (Host 40))
    end;
  pathForClick := fun _ _ => Some "notebooks/a.ipynb";
  preferredWidgetFactories := fun _ _ =>
    [ {| name := "Notebook" |}; {| name := "Editor" |} ];
  elementsByClassName := fun _ _ => [Host 12];
  shell_isEmpty := fun _ _ => true
|}.

(** The same host when the file browser [Host 20] has the focus. *)
Definition example_host_focused : HostEnv := {|
  currentWidget := fun _ => Some (Host 20);
  isHidden := isHidden example_host;
  widget_id := widget_id example_host;
  widget_model := widget_model example_host;
  model_path := model_path example_host;
  model_restored := model_restored example_host;
  selectedItems := selectedItems example_host;
  widget_answer := widget_answer example_host;
  pathForClick := pathForClick example_host;
  preferredWidgetFactories := preferredWidgetFactories example_host;
  elementsByClassName := elementsByClassName example_host;
  shell_isEmpty := shell_isEmpty example_host
|}.

Definition example_app : JupyterLab := {|
  app_commands := Host 1;
  app_shell := Host 2;
  app_restored := Host 3
|}.

Definition example_docManager : DocumentManager := {|
  dm_ref := Host 4;
  dm_registry := Host 5
|}.

Definition initial_state : State := {| next := 0; log := [] |}.

(** The [options] argument of [createFileBrowser] after defaulting. *)
Definition options_or_default (options : option IOptions) : IOptions :=
  match options with
  | Some o => o
  | None => empty_options
  end.

(** The calls [createFileBrowser] makes before it looks for the directory
    listing node, and the calls it makes once it has found it. *)
Definition createFileBrowser_prefix (app : JupyterLab)
           (docManager : DocumentManager) (state : Ref) (wid : string)
           (o : IOptions) (n : nat) : list Event :=
  let model := Fresh n in
  let widget := Fresh (S n) in
  let launcher := Fresh (S (S n)) in
  [ NewFileBrowserModel (dm_ref docManager)
      (str_or_empty (opt_driveName o))
      (match opt_state o with
       | Null => None
       | Present s => Some s
       | Absent => Some state
       end) model;
    NewFileBrowser wid model (obj_or (opt_commands o) (app_commands app))
                   widget;
    NewToolbarButton "jp-AddIcon"
                     (LauncherOnClick (app_commands app) widget) launcher;
    AddClass launcher "jp-MaterialIcon";
    ToolbarInsertItem widget 0 "launch" launcher;
    GetElementsByClassName widget "jp-DirListing-content" ].

Definition createFileBrowser_suffix (app : JupyterLab)
           (docManager : DocumentManager) (tracker node : Ref) (n : nat)
  : list Event :=
  let widget := Fresh (S n) in
  [ AddEventListener node "contextmenu"
      (ContextMenuListener widget (app_commands app) (dm_registry docManager));
    TrackerAdd tracker widget ].

(** The number of [new FileBrowser] and [new FileBrowserModel] calls of a
    log. *)
Definition count_new (k : Kind) (evs : list Event) : nat :=
  length (filter (fun e =>
                    match constructs e, k with
                    | Some KFileBrowser, KFileBrowser => true
                    | Some KFileBrowserModel, KFileBrowserModel => true
                    | _, _ => false
                    end) evs).

(** What the 'open' command does with one selected item: a directory is
    entered, anything else is opened through the document manager. *)
Definition opens (H : HostEnv) (commands widget : Ref) (item : Item)
           (e : Event) : Prop :=
  (item_type item = "directory"
   /\ e = ModelCd (widget_model H widget) (item_path item))
  \/ (item_type item <> "directory"
      /\ exists r, e = Execute commands "docmanager:open"
                         (Some [("path", item_path item)]) r).

(** The ID under which [addCommands] registers a command body. *)
Definition command_id (c : Cmd) : string :=
  match c with
  | CDel => CommandIDs.del
  | CCopy => CommandIDs.copy
  | CCut => CommandIDs.cut
  | CDownload => CommandIDs.download
  | CDuplicate => CommandIDs.duplicate
  | CHideBrowser => CommandIDs.hideBrowser
  | COpen => CommandIDs.open
  | CPaste => CommandIDs.paste
  | CRename => CommandIDs.rename
  | CShowBrowser => CommandIDs.showBrowser
  | CShutdown => CommandIDs.shutdown
  | CToggleBrowser => CommandIDs.toggleBrowser
  | CCreateLauncher => CommandIDs.createLauncher
  end.

(** The widget method a forwarding command calls. *)
Definition widget_method (c : Cmd) : option WidgetMethod :=
  match c with
  | CDel => Some MDelete
  | CCopy => Some MCopy
  | CCut => Some MCut
  | CDownload => Some MDownload
  | CDuplicate => Some MDuplicate
  | CPaste => Some MPaste
  | CRename => Some MRename
  | CShutdown => Some MShutdownKernels
  | COpen | CHideBrowser | CShowBrowser | CToggleBrowser
  | CCreateLauncher => None
  end.

(* ================================================================= *)
(** ** Further readings of a log *)

(** The number of calls of a log that satisfy [p]. *)
Definition count (p : Event -> bool) (evs : list Event) : nat :=
  length (filter p evs).

Definition is_execute (e : Event) : bool :=
  match e with
  | Execute _ _ _ _ => true
  | _ => false
  end.

Definition is_cd (e : Event) : bool :=
  match e with
  | ModelCd _ _ => true
  | _ => false
  end.

Definition is_tracker_add (e : Event) : bool :=
  match e with
  | TrackerAdd _ _ => true
  | _ => false
  end.

Definition is_listener (e : Event) : bool :=
  match e with
  | AddEventListener _ _ _ => true
  | _ => false
  end.

Definition is_directory (item : Item) : bool :=
  String.eqb (item_type item) "directory".

(** The IDs [addCommands] registers, in registration order. *)
Definition registered_ids (app : JupyterLab) (tracker browser : Ref)
  : list string :=
  map fst (registered (events_of (addCommands app tracker browser)
                                 {| next := 0; log := [] |})).

(** The command a menu item names. *)
Definition item_command (item : MenuItem) : option string :=
  match item with
  | CommandItem c _ => Some c
  | _ => None
  end.

(** The commands of a list of menu items that live in the file browser's
    own namespace, 'filebrowser:'. *)
Definition own_commands (items : list MenuItem) : list string :=
  flat_map (fun item =>
              match item_command item with
              | Some c => if String.prefix "filebrowser:" c then [c] else []
              | None => []
              end) items.

(** Two file browsers made one after the other by the same factory. *)
Definition create_two (H : HostEnv) (app : JupyterLab)
           (docManager : DocumentManager) (state tracker : Ref)
           (id1 : string) (o1 : option IOptions)
           (id2 : string) (o2 : option IOptions) : M (Ref * Ref) :=
  w1 <- createFileBrowser H app docManager state tracker id1 o1 ;;
  w2 <- createFileBrowser H app docManager state tracker id2 o2 ;;
  ret (w1, w2).

(** A host whose widgets have no directory listing node. *)
Definition example_host_bare : HostEnv := {|
  currentWidget := currentWidget example_host;
  isHidden := isHidden example_host;
  widget_id := widget_id example_host;
  widget_model := widget_model example_host;
  model_path := model_path example_host;
  model_restored := model_restored example_host;
  selectedItems := selectedItems example_host;
  widget_answer := widget_answer example_host;
  pathForClick := fun _ _ => None;
  preferredWidgetFactories := preferredWidgetFactories example_host;
  elementsByClassName := fun _ _ => [];
  shell_isEmpty := fun _ _ => false
|}.

(** The command registries a call is made on or passes along. *)
Definition registries_used (e : Event) : list Ref :=
  flat_map (fun u =>
              match u with
              | (KCommandRegistry, r) => [r]
              | _ => []
              end) (services_used e).

(** The concrete host with its browsers hidden. *)
Definition example_host_hidden : HostEnv := {|
  currentWidget := currentWidget example_host;
  isHidden := fun _ => true;
  widget_id := widget_id example_host;
  widget_model := widget_model example_host;
  model_path := model_path example_host;
  model_restored := model_restored example_host;
  selectedItems := selectedItems example_host;
  widget_answer := widget_answer example_host;
  pathForClick := pathForClick example_host;
  preferredWidgetFactories := preferredWidgetFactories example_host;
  elementsByClassName := elementsByClassName example_host;
  shell_isEmpty := shell_isEmpty example_host
|}.

(** A host where the focused browser has nothing selected and its
    [rename()] throws. *)
Definition example_host_no_selection : HostEnv := {|
  currentWidget := fun _ => Some (Host 20);
  isHidden := isHidden example_host;
  widget_id := widget_id example_host;
  widget_model := widget_model example_host;
  model_path := model_path example_host;
  model_restored := model_restored example_host;
  selectedItems := fun _ => [];
  widget_answer := fun _ m =>
    match m with
    | MRename => Raises (TypeError "Cannot read property of undefined")
    | _ => widget_answer example_host (Host 20) m
    end;
  pathForClick := pathForClick example_host;
  preferredWidgetFactories := preferredWidgetFactories example_host;
  elementsByClassName := elementsByClassName example_host;
  shell_isEmpty := shell_isEmpty example_host
|}.

(* ================================================================= *)
(** ** What the commands call, and on what *)

(** The four host objects a command body is said to call: the command
    registry, the application shell, the default browser and the tracker's
    current widget. *)
Definition named_hosts (H : HostEnv) (app : JupyterLab)
           (tracker browser : Ref) : list Ref :=
  [app_commands app; app_shell app; browser]
  ++ match currentWidget H tracker with
     | Some w => [w]
     | None => []
     end.

(** Every call of a log is made on one of the objects of [hosts]. *)
Definition calls_only (hosts : list Ref) (evs : list Event) : bool :=
  forallb (fun e =>
             match receiver e with
             | Some r => existsb (Ref_eqb r) hosts
             | None => false
             end) evs.

(** The outcome of a body that hands on the answer of a host method. *)
Definition answered (a : Answer) : Outcome Value :=
  match a with
  | Returns v => Ok v
  | Raises e => Throw e
  end.

(* ================================================================= *)
(** ** Promises *)










(* ================================================================= *)
(** ** Lemmas about the monad and the log *)

Lemma skipn_length_app {A : Type} (l r : list A) :
  skipn (length l) (l ++ r) = r.
Proof. induction l as [|x l IH]; simpl; [reflexivity | exact IH]. Qed.

(** A computation that ends in state [s'] having appended [evs]. *)
Lemma events_of_appended {A : Type} (c : M A) (s : State) (o : Outcome A)
      (n : nat) (evs : list Event) :
  c s = (o, {| next := n; log := log s ++ evs |}) ->
  events_of c s = evs /\ outcome_of c s = o.
Proof.
  intros E. unfold events_of, outcome_of. rewrite E. simpl.
  split; [apply skipn_length_app | reflexivity].
Qed.

Lemma each_emit {A : Type} (f : A -> Event) (l : list A) (s : State) :
  each l (fun x => emit (f x)) s
  = (Ok tt, {| next := next s; log := log s ++ map f l |}).
Proof.
  revert s. induction l as [|x l IH]; intros s; simpl.
  - rewrite app_nil_r. destruct s; reflexivity.
  - unfold bind, emit at 1. rewrite IH. simpl.
    rewrite <- app_assoc. reflexivity.
Qed.

Lemma appends_ret {A : Type} (P : Event -> Prop) (a : A) :
  appends P (ret a).
Proof. intros s. exists []. simpl. rewrite app_nil_r. auto. Qed.

Lemma appends_throw {A : Type} (P : Event -> Prop) (e : JsError) :
  appends P (@throw A e).
Proof. intros s. exists []. simpl. rewrite app_nil_r. auto. Qed.

Lemma appends_emit (P : Event -> Prop) (e : Event) :
  P e -> appends P (emit e).
Proof. intros Pe s. exists [e]. simpl. auto. Qed.

Lemma appends_bind {A B : Type} (P : Event -> Prop) (c : M A)
      (k : A -> M B) :
  appends P c -> (forall a, appends P (k a)) -> appends P (bind c k).
Proof.
  intros Hc Hk s. unfold bind.
  destruct (Hc s) as (evs1 & E1 & F1).
  destruct (c s) as [[a|e] s1]; simpl in E1.
  - destruct (Hk a s1) as (evs2 & E2 & F2).
    exists (evs1 ++ evs2). rewrite E2, E1, app_assoc.
    split; [reflexivity | apply Forall_app; auto].
  - exists evs1. simpl. auto.
Qed.

Lemma appends_call (P : Event -> Prop) (e : Ref -> Event) :
  (forall r, P (e r)) -> appends P (call e).
Proof.
  intros Pe s. exists [e (Fresh (next s))]. simpl. auto.
Qed.

Lemma appends_each {A : Type} (P : Event -> Prop) (fn : A -> M unit)
      (l : list A) :
  (forall x, appends P (fn x)) -> appends P (each l fn).
Proof.
  intros Hf. induction l as [|x l IH]; simpl.
  - apply appends_ret.
  - apply appends_bind; auto.
Qed.

Lemma appends_events_of {A : Type} (P : Event -> Prop) (c : M A)
      (s : State) :
  appends P c -> Forall P (events_of c s).
Proof.
  intros Hc. destruct (Hc s) as (evs & E & F).
  unfold events_of. rewrite E, skipn_length_app. exact F.
Qed.

(** One step of a computation. *)
Lemma run_bind_ret {A B : Type} (a : A) (k : A -> M B) (s : State) :
  bind (ret a) k s = k a s.
Proof. reflexivity. Qed.

Lemma run_bind_emit {B : Type} (e : Event) (k : unit -> M B) (s : State) :
  bind (emit e) k s = k tt {| next := next s; log := log s ++ [e] |}.
Proof. reflexivity. Qed.

Lemma run_bind_call {B : Type} (e : Ref -> Event) (k : Ref -> M B)
      (s : State) :
  bind (call e) k s
  = k (Fresh (next s))
      {| next := S (next s); log := log s ++ [e (Fresh (next s))] |}.
Proof. reflexivity. Qed.

Lemma run_bind_each_emit {A B : Type} (f : A -> Event) (l : list A)
      (k : unit -> M B) (s : State) :
  bind (each l (fun x => emit (f x))) k s
  = k tt {| next := next s; log := log s ++ map f l |}.
Proof. unfold bind at 1. rewrite each_emit. reflexivity. Qed.

Lemma run_bind_bind {A B C : Type} (c : M A) (k1 : A -> M B)
      (k2 : B -> M C) (s : State) :
  bind (bind c k1) k2 s = bind c (fun x => bind (k1 x) k2) s.
Proof. unfold bind. destruct (c s) as [[a|e] s']; reflexivity. Qed.

Lemma run_emit (e : Event) (s : State) :
  emit e s = (Ok tt, {| next := next s; log := log s ++ [e] |}).
Proof. reflexivity. Qed.

Lemma run_ret {A : Type} (a : A) (s : State) : ret a s = (Ok a, s).
Proof. reflexivity. Qed.

(** Running a computation step by step; loops over lists that are not
    literal are taken in one step. *)
Ltac step_monad :=
  repeat (first [ rewrite run_bind_call
                | rewrite run_bind_emit
                | rewrite run_bind_each_emit
                | rewrite run_bind_ret
                | rewrite run_bind_bind
                | rewrite run_emit
                | rewrite run_ret ];
          cbv beta; cbn [next log]).

Ltac appends_step :=
  first
    [ apply appends_ret
    | apply appends_throw
    | apply appends_emit
    | apply appends_call; intros ?
    | apply appends_bind; [ | intros ? ]
    | apply appends_each; intros ? ].

Lemma Ref_eqb_refl (r : Ref) : Ref_eqb r r = true.
Proof. unfold Ref_eqb. destruct (Ref_eq_dec r r); congruence. Qed.

Lemma Ref_eqb_Fresh_neq (a b : nat) :
  a <> b -> Ref_eqb (Fresh a) (Fresh b) = false.
Proof.
  intros N. unfold Ref_eqb.
  destruct (Ref_eq_dec (Fresh a) (Fresh b)) as [E|]; [|reflexivity].
  inversion E. contradiction.
Qed.

(** Running a computation on a state given by its two fields. *)
Ltac run_monad :=
  cbv beta iota zeta delta [bind call emit fresh ret throw next log fst snd negb];
  repeat rewrite <- app_assoc; cbn [app].

(** The same, unrolling the loops over literal lists. *)
Ltac run_loops :=
  cbv beta iota zeta delta [bind call emit fresh ret throw next log fst snd negb each];
  repeat rewrite <- app_assoc; cbn [app].

(** Reading a concrete log. *)
Ltac read_log :=
  cbv beta iota zeta
      delta [title_label menu_items registered fold_left flat_map app map].

Ltac find_in :=
  simpl; repeat (first [ left; reflexivity | right ]).

(* ================================================================= *)
(** ** The two parts of the repository *)

Lemma activateBrowser_run (H : HostEnv) (app : JupyterLab)
      (f : FileBrowserFactory) (restorer : Ref) (s : State) :
  exists evs,
    activateBrowser H app f restorer s
    = (Ok tt, {| next := S (S (S (next s))); log := log s ++ evs |})
    /\ evs =
       RestorerAdd restorer (defaultBrowser f) namespace
       :: events_of (addCommands app (tracker f) (defaultBrowser f))
                    {| next := 0; log := [] |}
       ++ [ SetTitleLabel (defaultBrowser f) "Files";
            AddToLeftArea (app_shell app) (defaultBrowser f) 100;
            PromiseThen (app_restored app) (OnRestored (app_commands app))
                        (Fresh (next s));
            PromiseAll [app_restored app;
                        model_restored H (widget_model H (defaultBrowser f))]
                       (Fresh (S (next s)));
            PromiseThen (Fresh (S (next s))) (OnAllRestored app (defaultBrowser f))
                        (Fresh (S (S (next s)))) ].
Proof.
  destruct s as [n l]. eexists. split.
  - unfold activateBrowser, addCommands. run_monad. reflexivity.
  - reflexivity.
Qed.

Lemma createMenu_run (app : JupyterLab) (s : State) :
  createMenu app s
  = (Ok (Fresh (next s)),
     {| next := S (next s);
        log := log s ++
          NewMenu (app_commands app) (Fresh (next s))
          :: SetTitleLabel (Fresh (next s)) "File"
          :: map (fun c => MenuAddItem (Fresh (next s)) (CommandItem c None))
                 [ "filebrowser:create-main-launcher";
                   "docmanager:save";
                   "docmanager:save-as";
                   "docmanager:rename";
                   "docmanager:restore-checkpoint";
                   "docmanager:clone";
                   "docmanager:close";
                   "docmanager:close-all-files" ]
          ++ [ MenuAddItem (Fresh (next s)) Separator;
               MenuAddItem (Fresh (next s))
                           (CommandItem "settingeditor:open" None) ] |}).
Proof.
  destruct s as [n l]. unfold createMenu. run_loops. reflexivity.
Qed.

(** C1.  The repository has two parts.  The console part exports the token
    [IConsoleTracker], named '@jupyterlab/console:IConsoleTracker', and the
    interface of the same name, and no plugin.  The file-browser extension
    exports the list of exactly three plugins [factory; browser; menu], in
    that order: [factory] provides [IFileBrowserFactory]; activating
    [browser] adds the default browser to the left area of the shell (the
    sidebar panel); activating [menu] adds the menu titled 'File' to the
    main menu. *)
Theorem C1_two_parts :
  repository = [tracker_ts; filebrowser_extension]
  /\ exported_tokens tracker_ts = [IConsoleTracker]
  /\ token_name IConsoleTracker = Some "@jupyterlab/console:IConsoleTracker"
  /\ exported_interfaces tracker_ts = ["IConsoleTracker"]
  /\ exported_plugins tracker_ts = []
  /\ exported_plugins filebrowser_extension = [factory; browser; menu]
  /\ length plugins = 3
  /\ (activate factory = ActivateFactory
      /\ provides factory = Some IFileBrowserFactory)
  /\ (activate browser = ActivateBrowser
      /\ forall H app f restorer s,
          outcome_of (activateBrowser H app f restorer) s = Ok tt
          /\ In (AddToLeftArea (app_shell app) (defaultBrowser f) 100)
                (events_of (activateBrowser H app f restorer) s))
  /\ (activate menu = ActivateMenu
      /\ forall app mainMenu s,
          outcome_of (activateMenu app mainMenu) s = Ok tt
          /\ exists m,
              let evs := events_of (activateMenu app mainMenu) s in
              In (AddMenu mainMenu m 1) evs
              /\ title_label m evs = Some "File").
Proof.
  repeat split; try reflexivity.
  - destruct (activateBrowser_run H app f restorer s) as (evs & E & Eevs).
    apply events_of_appended in E. destruct E as [-> _]. rewrite Eevs.
    right. apply in_or_app. right. find_in.
  - exists (Fresh (next s)). destruct s as [n l].
    unfold events_of, activateMenu, bind. rewrite createMenu_run.
    run_monad. rewrite skipn_length_app.
    split; [find_in|].
    read_log. rewrite !Ref_eqb_refl. reflexivity.
Qed.

(** C2 as stated fails: the console tracker module contributes no plugin
    value at all. *)
Lemma C2_tracker_module_has_no_plugin :
  ~ (forall m, In m repository ->
       exists p, In p (exported_plugins m)
                 /\ id p <> "" /\ exists ts, requires p = Some ts).
Proof.
  intros All. destruct (All tracker_ts) as (p & I & _).
  - left. reflexivity.
  - exact I.
Qed.

(** C2, amended.  The file-browser extension contributes three
    [JupyterLabPlugin] values, each with a non-empty id, an activate
    function of the extension and a declared, non-empty list of required
    tokens; the console tracker module contributes no plugin, only the
    token [IConsoleTracker] that plugins of other modules can provide or
    require. *)
Theorem C2_plugins_of_the_modules :
  Forall (fun p =>
            id p <> ""
            /\ In (activate p) [ActivateFactory; ActivateBrowser; ActivateMenu]
            /\ exists ts, requires p = Some ts /\ ts <> [])
         (exported_plugins filebrowser_extension)
  /\ length (exported_plugins filebrowser_extension) = 3
  /\ exported_plugins tracker_ts = []
  /\ exported_tokens tracker_ts = [IConsoleTracker].
Proof.
  split; [|repeat split].
  repeat constructor; simpl; try discriminate; try tauto;
    eexists; (split; [reflexivity|discriminate]).
Qed.

(* ================================================================= *)
(** ** The main menu *)

(** C5.  [createMenu] always returns a menu titled 'File' whose items are,
    in order, the eight commands 'filebrowser:create-main-launcher',
    'docmanager:save', 'docmanager:save-as', 'docmanager:rename',
    'docmanager:restore-checkpoint', 'docmanager:clone', 'docmanager:close',
    'docmanager:close-all-files', then one separator, then
    'settingeditor:open'. *)
Theorem C5_createMenu_fixed :
  forall (app : JupyterLab) (s : State),
  exists m,
    outcome_of (createMenu app) s = Ok m
    /\ In (NewMenu (app_commands app) m) (events_of (createMenu app) s)
    /\ title_label m (events_of (createMenu app) s) = Some "File"
    /\ menu_items m (events_of (createMenu app) s)
       = [ CommandItem "filebrowser:create-main-launcher" None;
           CommandItem "docmanager:save" None;
           CommandItem "docmanager:save-as" None;
           CommandItem "docmanager:rename" None;
           CommandItem "docmanager:restore-checkpoint" None;
           CommandItem "docmanager:clone" None;
           CommandItem "docmanager:close" None;
           CommandItem "docmanager:close-all-files" None;
           Separator;
           CommandItem "settingeditor:open" None ].
Proof.
  intros app s. exists (Fresh (next s)).
  destruct (events_of_appended _ _ _ _ _ (createMenu_run app s)) as [-> ->].
  split; [reflexivity|]. split; [find_in|].
  read_log. rewrite !Ref_eqb_refl. split; reflexivity.
Qed.


(* ================================================================= *)
(** ** The context menu *)

Lemma createContextMenu_run (H : HostEnv) (path : string)
      (commands registry : Ref) (s : State) :
  let menu := Fresh (next s) in
  let openWith := Fresh (S (next s)) in
  let factories := map name (preferredWidgetFactories H registry path) in
  let cond := truthy_str path && (1 <? length factories)%nat in
  createContextMenu H path commands registry s
  = (Ok menu,
     {| next := if cond then S (S (next s)) else S (next s);
        log := log s ++
          [ NewMenu commands menu;
            MenuAddItem menu (CommandItem CommandIDs.open None);
            PreferredWidgetFactories registry path ]
          ++ (if cond
              then NewMenu commands openWith
                   :: SetTitleLabel openWith "Open With..."
                   :: map (MenuAddItem openWith)
                          (open_with_items path factories)
                   ++ [MenuAddItem menu (SubmenuItem openWith)]
              else [])
          ++ map (fun c => MenuAddItem menu (CommandItem c None))
                 context_tail |}).
Proof.
  intros menu openWith factories cond.
  unfold createContextMenu. fold factories. fold cond. cbv zeta.
  destruct s as [n l]. subst menu openWith. cbn [next log].
  destruct cond; step_monad.
  - unfold open_with_items. rewrite map_map.
    cbn [app]. repeat rewrite <- app_assoc. reflexivity.
  - repeat rewrite <- app_assoc. reflexivity.
Qed.

Lemma menu_items_app (m : Ref) (a b : list Event) :
  menu_items m (a ++ b) = menu_items m a ++ menu_items m b.
Proof. unfold menu_items. apply flat_map_app. Qed.

Lemma menu_items_add (m m' : Ref) (items : list MenuItem) :
  menu_items m (map (MenuAddItem m') items)
  = if Ref_eqb m m' then items else [].
Proof.
  unfold menu_items.
  induction items as [|x l IH]; cbn [map flat_map].
  - destruct (Ref_eqb m m'); reflexivity.
  - rewrite IH. destruct (Ref_eqb m m'); reflexivity.
Qed.

Lemma title_label_app (w : Ref) (a b : list Event) :
  title_label w (a ++ b)
  = match title_label w b with
    | Some t => Some t
    | None => title_label w a
    end.
Proof.
  unfold title_label. rewrite fold_left_app.
  generalize (fold_left
                (fun acc e =>
                   match e with
                   | SetTitleLabel w' lbl =>
                       if Ref_eqb w w' then Some lbl else acc
                   | _ => acc
                   end) a None).
  induction b as [|e b IH]; intros acc; cbn [fold_left]; [reflexivity|].
  rewrite IH. rewrite (IH (match e with
                           | SetTitleLabel w' lbl =>
                               if Ref_eqb w w' then Some lbl else None
                           | _ => None
                           end)).
  destruct (fold_left _ b None); [reflexivity|].
  destruct e; try reflexivity.
  destruct (Ref_eqb w w0); reflexivity.
Qed.

Lemma title_label_add (w m : Ref) (items : list MenuItem) :
  title_label w (map (MenuAddItem m) items) = None.
Proof.
  unfold title_label. induction items as [|x l IH]; [reflexivity|exact IH].
Qed.

Lemma truthy_str_spec (s : string) : truthy_str s = true <-> s <> "".
Proof.
  unfold truthy_str. destruct (String.eqb_spec s ""); simpl; split;
    congruence.
Qed.

Lemma In_SubmenuItem (sub : Ref) (first : MenuItem) (mid : list MenuItem)
      (cs : list string) :
  In (SubmenuItem sub)
     (first :: mid ++ map (fun c => CommandItem c None) cs) ->
  first = SubmenuItem sub \/ In (SubmenuItem sub) mid.
Proof.
  intros [E|I]; [left; exact E|].
  apply in_app_or in I. destruct I as [I|I]; [right; exact I|].
  apply in_map_iff in I. destruct I as (c & E & _). discriminate.
Qed.

(** C9.  [createContextMenu] includes the 'Open With...' submenu if and
    only if [path] is non-empty and the registry reports strictly more than
    one preferred widget factory for it; the submenu then sits right after
    'filebrowser:open', is titled 'Open With...' and holds one
    'docmanager:open' item per factory name, in registry order, with
    arguments [{ factory, path }].  In all cases the other items are
    'filebrowser:open' first, then rename, delete, duplicate, cut, copy,
    paste, download, shutdown, in that order. *)
Theorem C9_createContextMenu_items :
  forall (H : HostEnv) (path : string) (commands registry : Ref) (s : State),
  let evs := events_of (createContextMenu H path commands registry) s in
  let fs := preferredWidgetFactories H registry path in
  exists m,
    outcome_of (createContextMenu H path commands registry) s = Ok m
    /\ ((exists sub, In (SubmenuItem sub) (menu_items m evs))
        <-> (path <> "" /\ 1 < length fs))
    /\ (forall sub, In (SubmenuItem sub) (menu_items m evs) ->
          menu_items m evs
          = CommandItem CommandIDs.open None
            :: SubmenuItem sub
            :: map (fun c => CommandItem c None) context_tail
          /\ title_label sub evs = Some "Open With..."
          /\ menu_items sub evs = open_with_items path (map name fs))
    /\ filter (fun i => negb (is_submenu i)) (menu_items m evs)
       = map (fun c => CommandItem c None)
             [ "filebrowser:open"; "filebrowser:rename";
               "filebrowser:delete"; "filebrowser:duplicate";
               "filebrowser:cut"; "filebrowser:copy"; "filebrowser:paste";
               "filebrowser:download"; "filebrowser:shutdown" ].
Proof.
  intros H path commands registry s evs fs.
  exists (Fresh (next s)).
  pose proof (createContextMenu_run H path commands registry s) as R.
  cbv zeta in R. fold fs in R.
  apply events_of_appended in R. destruct R as [Eevs Eout].
  fold evs in Eevs. split; [exact Eout|]. clear Eout.
  set (m := Fresh (next s)) in *. set (ow := Fresh (S (next s))) in *.
  assert (Nmo : Ref_eqb m ow = false)
    by (apply Ref_eqb_Fresh_neq; lia).
  assert (Nom : Ref_eqb ow m = false)
    by (apply Ref_eqb_Fresh_neq; lia).
  assert (Cond : truthy_str path && (1 <? length (map name fs))%nat = true
                 <-> (path <> "" /\ 1 < length fs)).
  { rewrite andb_true_iff, truthy_str_spec, Nat.ltb_lt, length_map.
    reflexivity. }
  assert (Tail : menu_items m
                   (map (fun c => MenuAddItem m (CommandItem c None))
                        context_tail)
                 = map (fun c => CommandItem c None) context_tail).
  { rewrite <- (map_map (fun c => CommandItem c None) (MenuAddItem m)).
    rewrite menu_items_add, Ref_eqb_refl. reflexivity. }
  assert (Head : menu_items m
                   [ NewMenu commands m;
                     MenuAddItem m (CommandItem CommandIDs.open None);
                     PreferredWidgetFactories registry path ]
                 = [CommandItem CommandIDs.open None]).
  { unfold menu_items. cbn [flat_map app]. rewrite Ref_eqb_refl.
    reflexivity. }
  destruct (truthy_str path && (1 <? length (map name fs))%nat) eqn:C.
  - (* the submenu is there *)
    change (NewMenu commands ow
            :: SetTitleLabel ow "Open With..."
            :: map (MenuAddItem ow) (open_with_items path (map name fs))
            ++ [MenuAddItem m (SubmenuItem ow)])
      with ([NewMenu commands ow; SetTitleLabel ow "Open With..."]
            ++ map (MenuAddItem ow) (open_with_items path (map name fs))
            ++ [MenuAddItem m (SubmenuItem ow)]) in Eevs.
    assert (Items : menu_items m evs
                    = CommandItem CommandIDs.open None
                      :: SubmenuItem ow
                      :: map (fun c => CommandItem c None) context_tail).
    { rewrite Eevs, !menu_items_app, Head, Tail, menu_items_add, Nmo.
      unfold menu_items at 1 2. cbn [flat_map app].
      rewrite Ref_eqb_refl. reflexivity. }
    split; [|split].
    + split; [intros _; apply Cond; reflexivity|].
      intros _. exists ow. rewrite Items. right. left. reflexivity.
    + intros sub I. rewrite Items in I.
      assert (sub = ow) as ->.
      { apply (In_SubmenuItem sub _ [SubmenuItem ow]) in I.
        destruct I as [E|[E|[]]]; [discriminate|congruence]. }
      split; [exact Items|]. rewrite Eevs. split.
      * rewrite !title_label_app, !title_label_add.
        unfold title_label. cbn [fold_left]. rewrite Ref_eqb_refl.
        reflexivity.
      * assert (TailOw : menu_items ow
                             (map (fun c => MenuAddItem m (CommandItem c None))
                                  context_tail) = []).
        { rewrite <- (map_map (fun c => CommandItem c None) (MenuAddItem m)).
          rewrite menu_items_add, Nom. reflexivity. }
        rewrite !menu_items_app, TailOw, menu_items_add, Ref_eqb_refl.
        unfold menu_items. cbn [flat_map app]. rewrite !Nom.
        cbn [app]. rewrite !app_nil_r. reflexivity.
    + rewrite Items. reflexivity.
  - (* no submenu *)
    assert (Items : menu_items m evs
                    = CommandItem CommandIDs.open None
                      :: map (fun c => CommandItem c None) context_tail).
    { rewrite Eevs, !menu_items_app, Head, Tail. reflexivity. }
    assert (No : forall sub, ~ In (SubmenuItem sub) (menu_items m evs)).
    { intros sub I. rewrite Items in I.
      apply (In_SubmenuItem sub _ []) in I.
      destruct I as [E|[]]. discriminate. }
    split; [|split].
    + split.
      * intros (sub & I). destruct (No sub I).
      * intros P. apply Cond in P. discriminate.
    + intros sub I. destruct (No sub I).
    + rewrite Items. reflexivity.
Qed.

Lemma C9_createContextMenu_items_witness :
  let evs := events_of (createContextMenu example_host "notebooks/a.ipynb"
                          (Host 1) (Host 5)) initial_state in
  In (SubmenuItem (Fresh 1)) (menu_items (Fresh 0) evs)
  /\ title_label (Fresh 1) evs = Some "Open With..."
  /\ menu_items (Fresh 1) evs
     = [ CommandItem "docmanager:open"
           (Some [("factory", "Notebook"); ("path", "notebooks/a.ipynb")]);
         CommandItem "docmanager:open"
           (Some [("factory", "Editor"); ("path", "notebooks/a.ipynb")]) ].
Proof.
  intros evs.
  destruct (C9_createContextMenu_items example_host "notebooks/a.ipynb"
              (Host 1) (Host 5) initial_state) as (m & Eo & _ & Sub & _).
  assert (m = Fresh 0) as -> by (vm_compute in Eo; congruence).
  assert (I : In (SubmenuItem (Fresh 1)) (menu_items (Fresh 0) evs))
    by (vm_compute; tauto).
  split; [exact I|].
  destruct (Sub (Fresh 1) I) as (_ & T & Items).
  split; [exact T | exact Items].
Defined.


(* ================================================================= *)
(** ** The file browser factory *)

Lemma createFileBrowser_run (H : HostEnv) (app : JupyterLab)
      (docManager : DocumentManager) (state tracker : Ref) (wid : string)
      (options : option IOptions) (s : State) :
  let o := options_or_default options in
  let prefix := createFileBrowser_prefix app docManager state wid o (next s) in
  createFileBrowser H app docManager state tracker wid options s
  = match hd_error (elementsByClassName H (Fresh (S (next s)))
                                         "jp-DirListing-content") with
    | Some node =>
        (Ok (Fresh (S (next s))),
         {| next := S (S (S (next s)));
            log := log s ++ prefix
                   ++ createFileBrowser_suffix app docManager tracker node
                                               (next s) |})
    | None =>
        (Throw (TypeError "node is undefined"),
         {| next := S (S (S (next s))); log := log s ++ prefix |})
    end.
Proof.
  intros o prefix. subst prefix. unfold createFileBrowser.
  fold (options_or_default options). fold o.
  destruct s as [n l]. cbn [next log]. run_monad.
  destruct (hd_error _); run_monad; reflexivity.
Qed.

Lemma str_or_empty_spec (d : option string) :
  str_or_empty d = match d with Some v => v | None => "" end.
Proof.
  destruct d as [v|]; simpl; [|reflexivity].
  destruct (String.eqb_spec v ""); congruence.
Qed.

(** C10.  Option defaulting in [createFileBrowser]: the state handed to the
    model is [null] exactly when [options.state === null], is
    [options.state] when that is an object, and is otherwise the plugin's
    state database; [driveName] is the given name, or the empty string when
    none is given; the widget's command registry is the given one, or the
    application's when none is given.  Calling without [options] is
    calling with [{ }]. *)
Theorem C10_option_defaulting :
  forall (H : HostEnv) (app : JupyterLab) (docManager : DocumentManager)
         (state tracker : Ref) (wid : string) (options : option IOptions)
         (s : State),
  let o := options_or_default options in
  exists driveName model_state commands rest,
    events_of (createFileBrowser H app docManager state tracker wid options) s
    = NewFileBrowserModel (dm_ref docManager) driveName model_state
                          (Fresh (next s))
      :: NewFileBrowser wid (Fresh (next s)) commands (Fresh (S (next s)))
      :: rest
    /\ (model_state = None <-> opt_state o = Null)
    /\ (forall r, opt_state o = Present r -> model_state = Some r)
    /\ (opt_state o = Absent -> model_state = Some state)
    /\ driveName = match opt_driveName o with Some d => d | None => "" end
    /\ commands = match opt_commands o with
                  | Some c => c
                  | None => app_commands app
                  end
    /\ (options = None -> model_state = Some state /\ driveName = ""
                          /\ commands = app_commands app).
Proof.
  intros H app docManager state tracker wid options s o.
  pose proof (createFileBrowser_run H app docManager state tracker wid
                options s) as R.
  cbv zeta in R. fold o in R.
  assert (E : exists rest,
             events_of (createFileBrowser H app docManager state tracker
                          wid options) s
             = createFileBrowser_prefix app docManager state wid o (next s)
               ++ rest).
  { destruct (hd_error _) as [node|].
    - apply events_of_appended in R. destruct R as [-> _]. eauto.
    - rewrite <- (app_nil_r (createFileBrowser_prefix _ _ _ _ _ _)) in R.
      apply events_of_appended in R. destruct R as [-> _]. eauto. }
  destruct E as (rest & ->). unfold createFileBrowser_prefix. simpl.
  do 4 eexists. split; [reflexivity|].
  split; [|split; [|split; [|split; [|split]]]].
  - destruct (opt_state o); split; congruence.
  - intros r ->. reflexivity.
  - intros ->. reflexivity.
  - apply str_or_empty_spec.
  - reflexivity.
  - intros ->. subst o. simpl. auto.
Qed.

Lemma C10_option_defaulting_witness :
  exists rest,
    events_of (createFileBrowser example_host example_app example_docManager
                 (Host 6) (Host 7) "other"
                 (Some {| opt_commands := Some (Host 8);
                          opt_driveName := Some "Drive";
                          opt_state := Null |}))
              initial_state
    = NewFileBrowserModel (Host 4) "Drive" None (Fresh 0)
      :: NewFileBrowser "other" (Fresh 0) (Host 8) (Fresh 1)
      :: rest.
Proof.
  destruct (C10_option_defaulting example_host example_app example_docManager
              (Host 6) (Host 7) "other"
              (Some {| opt_commands := Some (Host 8);
                       opt_driveName := Some "Drive";
                       opt_state := Null |})
              initial_state)
    as (dn & ms & cmds & rest & E & Hnull & _ & _ & Ed & Ec & _).
  exists rest. rewrite E.
  assert (ms = None) as -> by (apply Hnull; reflexivity).
  simpl in Ed, Ec. rewrite Ed, Ec. reflexivity.
Defined.

(** C3.  The factory is a thin adapter.  Whenever the new widget's DOM holds
    a directory listing node, [createFileBrowser id options] builds one
    [FileBrowserModel] on the injected document manager, builds one
    [FileBrowser] with exactly that id and that model, inserts a toolbar
    button named 'launch' at index 0, installs a 'contextmenu' listener on
    the directory listing node, adds the widget to the factory's tracker and
    returns the widget; these eight calls are all it does, and none of them
    is a file operation.  The factory built by [activateFactory] has as its
    [defaultBrowser] the one widget created with id 'filebrowser', tracked
    by the factory's own new tracker. *)
Theorem C3_factory_thin_adapter :
  forall (H : HostEnv) (app : JupyterLab) (docManager : DocumentManager)
         (state : Ref),
  (forall (tracker : Ref) (wid : string) (options : option IOptions)
          (s : State) (node : Ref),
     hd_error (elementsByClassName H (Fresh (S (next s)))
                                   "jp-DirListing-content") = Some node ->
     let c := createFileBrowser H app docManager state tracker wid options in
     let model := Fresh (next s) in
     let widget := Fresh (S (next s)) in
     let launcher := Fresh (S (S (next s))) in
     exists driveName model_state commands,
       outcome_of c s = Ok widget
       /\ events_of c s
          = [ NewFileBrowserModel (dm_ref docManager) driveName model_state
                                  model;
              NewFileBrowser wid model commands widget;
              NewToolbarButton "jp-AddIcon"
                (LauncherOnClick (app_commands app) widget) launcher;
              AddClass launcher "jp-MaterialIcon";
              ToolbarInsertItem widget 0 "launch" launcher;
              GetElementsByClassName widget "jp-DirListing-content";
              AddEventListener node "contextmenu"
                (ContextMenuListener widget (app_commands app)
                                     (dm_registry docManager));
              TrackerAdd tracker widget ]
       /\ count_new KFileBrowserModel (events_of c s) = 1
       /\ count_new KFileBrowser (events_of c s) = 1
       /\ forallb (fun e => negb (is_file_operation e)) (events_of c s)
          = true)
  /\ (forall (s : State) (node : Ref),
        hd_error (elementsByClassName H (Fresh (S (S (next s))))
                                      "jp-DirListing-content") = Some node ->
        let c := activateFactory H app docManager state in
        exists f model commands,
          outcome_of c s = Ok f
          /\ In (NewInstanceTracker namespace (tracker f)) (events_of c s)
          /\ In (NewFileBrowser "filebrowser" model commands
                                (defaultBrowser f)) (events_of c s)
          /\ In (TrackerAdd (tracker f) (defaultBrowser f)) (events_of c s)
          /\ count_new KFileBrowser (events_of c s) = 1
          /\ fb_createFileBrowser f
             = createFileBrowser H app docManager state (tracker f)).
Proof.
  intros H app docManager state. split.
  - intros tracker wid options s node Hnode c model widget launcher.
    pose proof (createFileBrowser_run H app docManager state tracker wid
                  options s) as R.
    cbv zeta in R. rewrite Hnode in R.
    apply events_of_appended in R. destruct R as [Ee Eo].
    fold c in Ee, Eo. do 3 eexists.
    split; [exact Eo|]. rewrite Ee.
    split; [reflexivity|]. repeat split.
  - intros s node Hnode c.
    pose proof (createFileBrowser_run H app docManager state
                  (Fresh (next s)) "filebrowser" None
                  {| next := S (next s);
                     log := log s ++ [NewInstanceTracker namespace
                                        (Fresh (next s))] |}) as R.
    cbv zeta in R. simpl next in R. rewrite Hnode in R.
    assert (E : c s
                = (Ok {| fb_createFileBrowser :=
                           createFileBrowser H app docManager state
                                             (Fresh (next s));
                         defaultBrowser := Fresh (S (S (next s)));
                         tracker := Fresh (next s) |},
                   {| next := S (S (S (S (next s))));
                      log := log s ++
                        NewInstanceTracker namespace (Fresh (next s))
                        :: createFileBrowser_prefix app docManager state
                             "filebrowser" empty_options (S (next s))
                        ++ createFileBrowser_suffix app docManager
                             (Fresh (next s)) node (S (next s)) |})).
    { unfold c, activateFactory. unfold bind at 1. unfold call at 1.
      unfold bind at 1 2, fresh at 1, emit at 1, ret at 1. simpl.
      unfold bind at 1. rewrite R. unfold ret. simpl.
      rewrite <- app_assoc. reflexivity. }
    apply events_of_appended in E. destruct E as [Ee Eo].
    do 3 eexists. split; [exact Eo|]. rewrite Ee. simpl.
    split; [find_in|]. split; [find_in|]. split; [find_in|].
    split; reflexivity.
Qed.

Lemma C3_factory_thin_adapter_witness :
  outcome_of (createFileBrowser example_host example_app example_docManager
                (Host 6) (Host 7) "other" None) initial_state
  = Ok (Fresh 1)
  /\ exists f,
      outcome_of (activateFactory example_host example_app
                    example_docManager (Host 6)) initial_state = Ok f
      /\ defaultBrowser f = Fresh 2.
Proof.
  destruct (C3_factory_thin_adapter example_host example_app
              example_docManager (Host 6)) as [Create Activate].
  split.
  - destruct (Create (Host 7) "other" None initial_state (Host 12)
                eq_refl) as (dn & ms & cmds & Eo & _).
    exact Eo.
  - destruct (Activate initial_state (Host 12) eq_refl)
      as (f & model & commands & Eo & _).
    exists f. split; [exact Eo|].
    vm_compute in Eo. injection Eo as <-. reflexivity.
Defined.


(* ================================================================= *)
(** ** The commands *)

Lemma addCommands_run (app : JupyterLab) (tracker browser : Ref)
      (s : State) :
  exists evs,
    addCommands app tracker browser s
    = (Ok tt, {| next := next s; log := log s ++ evs |})
    /\ map (fun r => (fst r, execute (snd r))) (registered evs)
       = map (fun c => (command_id c,
                        CommandExecute c app tracker browser))
             [ CDel; CCopy; CCut; CDownload; CDuplicate; CHideBrowser;
               COpen; CPaste; CRename; CShowBrowser; CShutdown;
               CToggleBrowser; CCreateLauncher ]
    /\ Forall (fun e => receiver e = Some (app_commands app)) evs
    /\ length evs = 13.
Proof.
  destruct s as [n l]. eexists. split; [|split; [|split]].
  - unfold addCommands. run_monad. reflexivity.
  - reflexivity.
  - repeat constructor.
  - reflexivity.
Qed.

Lemma open_loop_run (H : HostEnv) (commands widget : Ref)
      (items : list Item) (s : State) :
  exists evs n,
    each items
         (fun item =>
            if String.eqb (item_type item) "directory"
            then emit (ModelCd (widget_model H widget) (item_path item))
            else
              _ <- call (Execute commands "docmanager:open"
                           (Some [("path", item_path item)])) ;;
              ret tt) s
    = (Ok tt, {| next := n; log := log s ++ evs |})
    /\ Forall2 (opens H commands widget) items evs.
Proof.
  revert s. induction items as [|item items IH]; intros s.
  - exists [], (next s). cbn [each]. rewrite run_ret, app_nil_r.
    destruct s. split; [reflexivity|constructor].
  - cbn [each].
    destruct (String.eqb_spec (item_type item) "directory") as [E|N].
    + rewrite run_bind_emit.
      destruct (IH {| next := next s;
                      log := log s ++ [ModelCd (widget_model H widget)
                                               (item_path item)] |})
        as (evs & n & R & F).
      rewrite R. cbn [next log]. rewrite <- app_assoc.
      eexists _, n. split; [reflexivity|].
      constructor; [left; auto | exact F].
    + rewrite run_bind_bind, run_bind_call. cbv beta. rewrite run_bind_ret.
      destruct (IH {| next := S (next s);
                      log := log s ++ [Execute commands "docmanager:open"
                                         (Some [("path", item_path item)])
                                         (Fresh (next s))] |})
        as (evs & n & R & F).
      rewrite R. cbn [next log]. rewrite <- app_assoc.
      eexists _, n. split; [reflexivity|].
      constructor; [right; eauto | exact F].
Qed.

Lemma forward_run (H : HostEnv) (tracker : Ref) (m : WidgetMethod)
      (s : State) :
  forward H tracker m s
  = match currentWidget H tracker with
    | None => (Ok VUndefined, s)
    | Some w =>
        (answered (widget_answer H w m),
         {| next := next s; log := log s ++ [WidgetInvoke w m] |})
    end.
Proof.
  unfold forward. destruct (currentWidget H tracker) as [w|];
    [|reflexivity].
  rewrite run_bind_emit. destruct (widget_answer H w m); reflexivity.
Qed.

Lemma forward_body (H : HostEnv) (app : JupyterLab) (tracker browser : Ref)
      (c : Cmd) (m : WidgetMethod) :
  widget_method c = Some m ->
  execute_body H c app tracker browser = forward H tracker m.
Proof. destruct c; cbn [widget_method]; intros [= <-]; reflexivity. Qed.

Lemma open_body_run (H : HostEnv) (app : JupyterLab) (tracker browser : Ref)
      (s : State) :
  match currentWidget H tracker with
  | None => execute_body H COpen app tracker browser s = (Ok VUndefined, s)
  | Some w =>
      exists evs n,
        execute_body H COpen app tracker browser s
        = (Ok VUndefined,
           {| next := n;
              log := log s ++ WidgetCall w MSelectedItems (Fresh (next s))
                              :: evs |})
        /\ Forall2 (opens H (app_commands app) w) (selectedItems H w) evs
  end.
Proof.
  unfold execute_body.
  destruct (currentWidget H tracker) as [w|]; [|reflexivity].
  destruct (open_loop_run H (app_commands app) w (selectedItems H w)
              {| next := S (next s);
                 log := log s ++ [WidgetCall w MSelectedItems
                                    (Fresh (next s))] |})
    as (evs & n & R & F).
  exists evs, n. split; [|exact F].
  rewrite run_bind_call. cbv beta. unfold bind at 1. rewrite R.
  rewrite run_ret. cbn [next log]. rewrite <- app_assoc. reflexivity.
Qed.

(** C4 as stated fails: 'filebrowser:open' with a directory selected calls
    [cd] on the model of the current widget, which is none of the four
    objects the claim names (the tracker's current widget, the default
    browser, the application shell, the command registry). *)
Lemma C4_open_calls_the_model :
  ~ (forall (H : HostEnv) (app : JupyterLab) (tracker browser : Ref)
            (c : Cmd) (arg : Arg) (s : State),
        calls_only (named_hosts H app tracker browser)
                   (events_of (run H (CommandExecute c app tracker browser)
                                   arg) s) = true).
Proof.
  intros All.
  specialize (All example_host_focused example_app (Host 7) (Host 8) COpen
                  ANone initial_state).
  vm_compute in All. discriminate All.
Qed.

(** C4, amended.  [addCommands] registers the thirteen commands, and each
    execute body is glue that does exactly this, passing on only literals
    of the source and values read from the host:
    - delete, copy, cut, download, duplicate, paste, rename, shutdown:
      nothing without a current widget; otherwise one call of the widget
      method on the current widget, whose return value or exception is
      handed on as it is;
    - hide-main: [shell.collapseLeft()] if and only if the default browser
      is not hidden;
    - activate-main: [shell.activateById(browser.id)];
    - toggle-main: one [commands.execute], of 'activate-main' if the
      browser is hidden and of 'hide-main' otherwise, whose promise is
      returned;
    - create-main-launcher: [commands.execute('launcher:create', {cwd})]
      with the path of the default browser's model, and one [.then] on the
      promise it returns;
    - open: nothing without a current widget; otherwise
      [widget.selectedItems()] and then, for each selected item in turn,
      [widget.model.cd(path)] for a directory and
      [commands.execute('docmanager:open', {path})] for anything else. *)
Theorem C4_command_bodies :
  forall (app : JupyterLab) (tracker browser : Ref) (s : State),
  let exec c := CommandExecute c app tracker browser in
  map (fun r => (fst r, execute (snd r)))
      (registered (events_of (addCommands app tracker browser) s))
  = [ ("filebrowser:delete", exec CDel);
      ("filebrowser:copy", exec CCopy);
      ("filebrowser:cut", exec CCut);
      ("filebrowser:download", exec CDownload);
      ("filebrowser:duplicate", exec CDuplicate);
      ("filebrowser:hide-main", exec CHideBrowser);
      ("filebrowser:open", exec COpen);
      ("filebrowser:paste", exec CPaste);
      ("filebrowser:rename", exec CRename);
      ("filebrowser:activate-main", exec CShowBrowser);
      ("filebrowser:shutdown", exec CShutdown);
      ("filebrowser:toggle-main", exec CToggleBrowser);
      ("filebrowser:create-main-launcher", exec CCreateLauncher) ]
  /\ forall (H : HostEnv) (arg : Arg) (s' : State),
      let body c := run H (exec c) arg s' in
      let commands := app_commands app in
      let shell := app_shell app in
      let model := widget_model H browser in
      Forall (fun cm : Cmd * WidgetMethod =>
                body (fst cm)
                = match currentWidget H tracker with
                  | None => (Ok VUndefined, s')
                  | Some w =>
                      (answered (widget_answer H w (snd cm)),
                       {| next := next s';
                          log := log s' ++ [WidgetInvoke w (snd cm)] |})
                  end)
             [ (CDel, MDelete); (CCopy, MCopy); (CCut, MCut);
               (CDownload, MDownload); (CDuplicate, MDuplicate);
               (CPaste, MPaste); (CRename, MRename);
               (CShutdown, MShutdownKernels) ]
      /\ body CHideBrowser
         = (Ok VUndefined,
            if isHidden H browser then s'
            else {| next := next s';
                    log := log s' ++ [CollapseLeft shell] |})
      /\ body CShowBrowser
         = (Ok VUndefined,
            {| next := next s';
               log := log s' ++ [ActivateById shell (widget_id H browser)] |})
      /\ body CToggleBrowser
         = (Ok (VObj (Fresh (next s'))),
            {| next := S (next s');
               log := log s' ++
                 [Execute commands
                    (if isHidden H browser
                     then "filebrowser:activate-main"
                     else "filebrowser:hide-main")
                    None (Fresh (next s'))] |})
      /\ body CCreateLauncher
         = (Ok (VObj (Fresh (S (next s')))),
            {| next := S (S (next s'));
               log := log s' ++
                 [ Execute commands "launcher:create"
                           (Some [("cwd", model_path H model)])
                           (Fresh (next s'));
                   PromiseThen (Fresh (next s')) (LauncherCreated model)
                               (Fresh (S (next s'))) ] |})
      /\ match currentWidget H tracker with
         | None => body COpen = (Ok VUndefined, s')
         | Some w =>
             exists evs n,
               body COpen
               = (Ok VUndefined,
                  {| next := n;
                     log := log s' ++
                       WidgetCall w MSelectedItems (Fresh (next s'))
                       :: evs |})
               /\ Forall2 (opens H commands w) (selectedItems H w) evs
         end.
Proof.
  intros app tracker browser s exec. split.
  - destruct s as [n l]. unfold events_of, addCommands. run_monad.
    rewrite skipn_length_app. reflexivity.
  - intros H arg s' body commands shell model.
    subst body exec commands shell model. unfold run.
    split; [|split; [|split; [|split; [|split]]]].
    + repeat constructor; cbn [fst snd]; apply forward_run.
    + destruct s' as [n l]. unfold execute_body.
      destruct (isHidden H browser); run_monad; reflexivity.
    + destruct s' as [n l]. unfold execute_body. run_monad. reflexivity.
    + destruct s' as [n l]. unfold execute_body.
      destruct (isHidden H browser); run_monad; reflexivity.
    + destruct s' as [n l]. unfold execute_body, createLauncher.
      run_monad. reflexivity.
    + apply open_body_run.
Qed.

Lemma Forall2_In_r {A B : Type} (R : A -> B -> Prop) (l : list A)
      (l' : list B) (b : B) :
  Forall2 R l l' -> In b l' -> exists a, In a l /\ R a b.
Proof.
  induction 1 as [|x y l l' Rxy _ IH]; intros I; [contradiction|].
  destruct I as [<-|I].
  - exists x. split; [left; reflexivity | exact Rxy].
  - destruct (IH I) as (a & Ia & Ra). exists a. split; [right|]; assumption.
Qed.

(** C8.  For every tracker-backed command (copy, cut, delete, download,
    duplicate, open, paste, rename, shutdown): if the tracker's current
    widget is null when the command executes, [execute] returns [undefined],
    makes no call and changes nothing; a widget (or model) operation is only
    ever made on an existing current widget; and when there is one, a
    forwarding command makes exactly one call, of its widget method on that
    widget, and hands on what the method answers: the value it returns
    ([undefined] included) or the exception it throws. *)
Theorem C8_null_widget_guard :
  forall (H : HostEnv) (app : JupyterLab) (tracker browser : Ref) (c : Cmd)
         (arg : Arg) (s : State),
  In c tracker_backed ->
  let body := run H (CommandExecute c app tracker browser) arg in
  (currentWidget H tracker = None -> body s = (Ok VUndefined, s))
  /\ (forall e, In e (events_of body s) -> is_widget_operation e = true ->
        exists w, currentWidget H tracker = Some w
                  /\ (receiver e = Some w
                      \/ receiver e = Some (widget_model H w)))
  /\ (forall w m, currentWidget H tracker = Some w ->
        widget_method c = Some m ->
        body s
        = (answered (widget_answer H w m),
           {| next := next s; log := log s ++ [WidgetInvoke w m] |})).
Proof.
  intros H app tracker browser c arg s Hc body.
  pose proof (open_body_run H app tracker browser s) as G.
  subst body. unfold run.
  assert (NotFwd : widget_method c = None -> c = COpen).
  { intros N. destruct c; try discriminate N; try reflexivity;
      cbn [tracker_backed In] in Hc; exfalso; intuition discriminate. }
  split; [|split].
  - intros Cw.
    destruct (widget_method c) as [m|] eqn:Wm.
    + rewrite (forward_body H app tracker browser c m Wm), forward_run, Cw.
      reflexivity.
    + rewrite (NotFwd eq_refl) in *. rewrite Cw in G. exact G.
  - intros e I Op.
    destruct (currentWidget H tracker) as [w|] eqn:Cw.
    + exists w. split; [reflexivity|].
      destruct (widget_method c) as [m|] eqn:Wm.
      * pose proof (forward_run H tracker m s) as R. rewrite Cw in R.
        rewrite (forward_body H app tracker browser c m Wm) in I.
        apply events_of_appended in R. destruct R as [Ee _].
        rewrite Ee in I. destruct I as [<-|[]]. left. reflexivity.
      * rewrite (NotFwd eq_refl) in *.
        destruct G as (evs & n & R & F).
        apply events_of_appended in R. destruct R as [Ee _].
        rewrite Ee in I.
        destruct I as [<-|I]; [left; reflexivity|].
        destruct (Forall2_In_r _ _ _ _ F I) as (item & _ & O).
        destruct O as [(_ & ->)|(_ & r & ->)]; [|discriminate].
        right. reflexivity.
    + exfalso.
      assert (E : execute_body H c app tracker browser s
                  = (Ok VUndefined, s)).
      { destruct (widget_method c) as [m|] eqn:Wm.
        - rewrite (forward_body H app tracker browser c m Wm), forward_run,
            Cw. reflexivity.
        - rewrite (NotFwd eq_refl) in *. exact G. }
      unfold events_of in I. rewrite E in I. cbn [snd] in I.
      rewrite skipn_all in I. exact I.
  - intros w m Cw Wm.
    rewrite (forward_body H app tracker browser c m Wm), forward_run, Cw.
    reflexivity.
Qed.

Lemma C8_null_widget_guard_witness :
  (In COpen tracker_backed
   /\ currentWidget example_host (Host 7) = None
   /\ run example_host (CommandExecute COpen example_app (Host 7) (Host 8))
          ANone initial_state
      = (Ok VUndefined, initial_state))
  /\ (In CCopy tracker_backed
      /\ currentWidget example_host_focused (Host 7) = Some (Host 20)
      /\ run example_host_focused
             (CommandExecute CCopy example_app (Host 7) (Host 8)) ANone
             initial_state
         = (Ok VUndefined,
            {| next := 0; log := [WidgetInvoke (Host 20) MCopy] |}))
  /\ (In CRename tracker_backed
      /\ currentWidget example_host_no_selection (Host 7) = Some (Host 20)
      /\ run example_host_no_selection
             (CommandExecute CRename example_app (Host 7) (Host 8)) ANone
             initial_state
         = (Throw (TypeError "Cannot read property of undefined"),
            {| next := 0; log := [WidgetInvoke (Host 20) MRename] |})).
Proof.
  assert (Io : In COpen tracker_backed) by (simpl; tauto).
  assert (Ic : In CCopy tracker_backed) by (simpl; tauto).
  assert (Ir : In CRename tracker_backed) by (simpl; tauto).
  split; [|split].
  - split; [exact Io|]. split; [reflexivity|].
    apply (C8_null_widget_guard example_host example_app (Host 7) (Host 8)
             COpen ANone initial_state Io).
    reflexivity.
  - split; [exact Ic|]. split; [reflexivity|].
    destruct (C8_null_widget_guard example_host_focused example_app
                (Host 7) (Host 8) CCopy ANone initial_state Ic)
      as (_ & _ & Fwd).
    exact (Fwd (Host 20) MCopy eq_refl eq_refl).
  - split; [exact Ir|]. split; [reflexivity|].
    destruct (C8_null_widget_guard example_host_no_selection example_app
                (Host 7) (Host 8) CRename ANone initial_state Ir)
      as (_ & _ & Fwd).
    exact (Fwd (Host 20) MRename eq_refl eq_refl).
Defined.

(* ================================================================= *)
(** ** The services are the host's *)

(** Unfolding a computation down to its host calls, splitting on what it
    reads from the host. *)
Ltac appends_all :=
  repeat lazymatch goal with
    | |- appends _ (ret _) => apply appends_ret
    | |- appends _ (throw _) => apply appends_throw
    | |- appends _ (emit _) => apply appends_emit
    | |- appends _ (call _) => apply appends_call; intros ?
    | |- appends _ (bind _ _) => apply appends_bind; [|intros ?]
    | |- appends _ (each _ _) => apply appends_each; intros ?
    | |- appends _ (if ?b then _ else _) => destruct b
    | |- appends _ (match ?x with _ => _ end) => destruct x eqn:?
    end.

Ltac supplied_event :=
  split;
  [ intros k; cbn [constructs]; intros Ek;
    first [ discriminate Ek | injection Ek as <-; reflexivity ]
  | cbn [services_used captured execute];
    repeat first [ apply Forall_nil | apply Forall_cons ];
    cbn [injected]; eauto 6 ].

Lemma createFileBrowser_supplied (H : HostEnv) (app : JupyterLab)
      (docManager : DocumentManager) (state restorer tracker : Ref)
      (wid : string) (options : option IOptions) :
  appends (supplied app docManager state restorer options)
          (createFileBrowser H app docManager state tracker wid options).
Proof.
  unfold createFileBrowser. cbv zeta.
  destruct options as [[[oc|] od [| |os]]|]; cbn [opt_commands opt_driveName
    opt_state empty_options obj_or];
    appends_all; supplied_event.
Qed.

Lemma activateFactory_supplied (H : HostEnv) (app : JupyterLab)
      (docManager : DocumentManager) (state restorer : Ref) :
  appends (supplied app docManager state restorer None)
          (activateFactory H app docManager state).
Proof.
  unfold activateFactory. appends_all.
  - supplied_event.
  - apply createFileBrowser_supplied.
Qed.

Lemma addCommands_supplied (app : JupyterLab) (docManager : DocumentManager)
      (state restorer tracker browser : Ref) (options : option IOptions) :
  appends (supplied app docManager state restorer options)
          (addCommands app tracker browser).
Proof. unfold addCommands. cbv zeta. appends_all; supplied_event. Qed.

Lemma activateBrowser_supplied (H : HostEnv) (app : JupyterLab)
      (docManager : DocumentManager) (state restorer : Ref)
      (f : FileBrowserFactory) :
  appends (supplied app docManager state restorer None)
          (activateBrowser H app f restorer).
Proof.
  unfold activateBrowser. cbv zeta. appends_all;
    try apply addCommands_supplied; supplied_event.
Qed.

Lemma activateMenu_supplied (app : JupyterLab) (docManager : DocumentManager)
      (state restorer mainMenu : Ref) :
  appends (supplied app docManager state restorer None)
          (activateMenu app mainMenu).
Proof.
  unfold activateMenu, createMenu. cbv zeta. appends_all; supplied_event.
Qed.

(** A closure uses no other service than those it captured. *)
Lemma run_supplied (H : HostEnv) (app : JupyterLab)
      (docManager : DocumentManager) (state restorer : Ref)
      (cb : Callback) (arg : Arg) (options : option IOptions) :
  Forall (injected app docManager state restorer options) (captured cb) ->
  appends (supplied app docManager state restorer options) (run H cb arg).
Proof.
  intros Cap.
  destruct cb as [c w|w c r|c|a b|a m b|c b|m|l m|c a t b];
    cbn [captured] in Cap;
    repeat match goal with
           | F : Forall _ (_ :: _) |- _ => inversion F; clear F; subst
           end;
    try (destruct c);
    unfold run, execute_body, forward, createLauncher, createContextMenu,
      maybeCreate;
    cbv zeta; appends_all; supplied_event.
Qed.

(** C6.  The command registry, the layout restorer, the document manager
    and the state database are supplied from outside: no call of the
    extension builds one of them, and every place where one of them is
    used (as the object called, as an argument, or captured by a closure
    handed to the host) holds a value the host injected: [app.commands],
    the [docManager] and [state] arguments of [activateFactory], the
    [restorer] argument of [activateBrowser], or the [commands] and [state]
    fields of the [options] a caller passes to [createFileBrowser].  This
    holds for the three activation functions, for [createFileBrowser], and
    for the body of every closure that captures injected services only. *)
Theorem C6_services_are_injected :
  forall (H : HostEnv) (app : JupyterLab) (docManager : DocumentManager)
         (state restorer : Ref),
  (forall s,
     host_supplied app docManager state restorer None
       (events_of (activateFactory H app docManager state) s))
  /\ (forall tracker wid options s,
        host_supplied app docManager state restorer options
          (events_of (createFileBrowser H app docManager state tracker wid
                        options) s))
  /\ (forall f s,
        host_supplied app docManager state restorer None
          (events_of (activateBrowser H app f restorer) s))
  /\ (forall mainMenu s,
        host_supplied app docManager state restorer None
          (events_of (activateMenu app mainMenu) s))
  /\ (forall cb arg options s,
        Forall (injected app docManager state restorer options)
               (captured cb) ->
        host_supplied app docManager state restorer options
          (events_of (run H cb arg) s)).
Proof.
  intros H app docManager state restorer. unfold host_supplied.
  split; [|split; [|split; [|split]]]; intros.
  - apply appends_events_of, activateFactory_supplied.
  - apply appends_events_of, createFileBrowser_supplied.
  - apply appends_events_of, activateBrowser_supplied.
  - apply appends_events_of, activateMenu_supplied.
  - apply appends_events_of, run_supplied. assumption.
Qed.

Lemma C6_services_are_injected_witness :
  Forall (injected example_app example_docManager (Host 6) (Host 9) None)
         (captured (ContextMenuListener (Fresh 1) (Host 1) (Host 5)))
  /\ host_supplied example_app example_docManager (Host 6) (Host 9) None
       (events_of (run example_host
                       (ContextMenuListener (Fresh 1) (Host 1) (Host 5))
                       (AMouse {| clientX := 10; clientY := 20 |}))
                  initial_state).
Proof.
  assert (Cap : Forall (injected example_app example_docManager (Host 6)
                                 (Host 9) None)
                       (captured (ContextMenuListener (Fresh 1) (Host 1)
                                                      (Host 5)))).
  { repeat constructor. }
  split; [exact Cap|].
  apply (C6_services_are_injected example_host example_app
           example_docManager (Host 6) (Host 9)).
  exact Cap.
Defined.

(* ================================================================= *)
(** ** The code run on the concrete host *)

(** 'filebrowser:open' with a directory and a notebook selected. *)
Example open_selected_items :
  events_of (run example_host_focused
                 (CommandExecute COpen example_app (Host 7) (Host 8)) ANone)
            initial_state
  = [ WidgetCall (Host 20) MSelectedItems (Fresh 0);
      ModelCd (Host 10) "notebooks/data";
      Execute (Host 1) "docmanager:open"
              (Some [("path", "notebooks/a.ipynb")]) (Fresh 1) ].
Proof. reflexivity. Qed.

(** 'filebrowser:toggle-main' while the browser is shown. *)
Example toggle_shown_browser :
  run example_host (CommandExecute CToggleBrowser example_app (Host 7)
                                   (Host 8)) ANone initial_state
  = (Ok (VObj (Fresh 0)),
     {| next := 1;
        log := [Execute (Host 1) "filebrowser:hide-main" None (Fresh 0)] |}).
Proof. reflexivity. Qed.

(** Activating the factory: the tracker, then the default browser. *)
Example activateFactory_log :
  events_of (activateFactory example_host example_app example_docManager
                             (Host 6)) initial_state
  = [ NewInstanceTracker "filebrowser" (Fresh 0);
      NewFileBrowserModel (Host 4) "" (Some (Host 6)) (Fresh 1);
      NewFileBrowser "filebrowser" (Fresh 1) (Host 1) (Fresh 2);
      NewToolbarButton "jp-AddIcon" (LauncherOnClick (Host 1) (Fresh 2))
                       (Fresh 3);
      AddClass (Fresh 3) "jp-MaterialIcon";
      ToolbarInsertItem (Fresh 2) 0 "launch" (Fresh 3);
      GetElementsByClassName (Fresh 2) "jp-DirListing-content";
      AddEventListener (Host 12) "contextmenu"
        (ContextMenuListener (Fresh 2) (Host 1) (Host 5));
      TrackerAdd (Fresh 0) (Fresh 2) ].
Proof. reflexivity. Qed.

(** A widget without a directory listing node: [createFileBrowser] throws
    after building the model, the widget and the toolbar button, and the
    widget is not tracked. *)
Example createFileBrowser_without_listing :
  outcome_of (createFileBrowser example_host_bare example_app
                example_docManager (Host 6) (Host 7) "other" None)
             initial_state
  = Throw (TypeError "node is undefined").
Proof. reflexivity. Qed.

(** The launcher button of the toolbar, clicked. *)
Example launcher_clicked :
  events_of (run example_host (LauncherOnClick (Host 1) (Fresh 2)) ANone)
            initial_state
  = [ Execute (Host 1) "launcher:create" (Some [("cwd", "notebooks")])
              (Fresh 0);
      PromiseThen (Fresh 0) (LauncherCreated (Host 10)) (Fresh 1) ].
Proof. reflexivity. Qed.

(** 'filebrowser:delete' on the focused browser hands on the promise of
    [widget.delete()]; 'filebrowser:rename' hands on the exception of
    [widget.rename()]. *)
Example delete_on_focused_browser :
  run example_host_focused
      (CommandExecute CDel example_app (Host 7) (Host 8)) ANone initial_state
  = (Ok (VObj (Host 40)),
     {| next := 0; log := [WidgetInvoke (Host 20) MDelete] |}).
Proof. reflexivity. Qed.

Example rename_without_selection :
  outcome_of (run example_host_no_selection
                  (CommandExecute CRename example_app (Host 7) (Host 8))
                  ANone) initial_state
  = Throw (TypeError "Cannot read property of undefined").
Proof. reflexivity. Qed.

(* ================================================================= *)
(** ** Restoration of the session *)

(** Reading the events of a body run on a state given by its fields. *)
Ltac run_events :=
  unfold events_of, outcome_of; run_monad;
  rewrite ?skipn_length_app, ?skipn_all.

(** The log of [activateBrowser], with the commands spelled out. *)
Lemma activateBrowser_events (H : HostEnv) (app : JupyterLab)
      (f : FileBrowserFactory) (restorer : Ref) (s : State) :
  events_of (activateBrowser H app f restorer) s
  = RestorerAdd restorer (defaultBrowser f) namespace
    :: events_of (addCommands app (tracker f) (defaultBrowser f))
                 {| next := 0; log := [] |}
    ++ [ SetTitleLabel (defaultBrowser f) "Files";
         AddToLeftArea (app_shell app) (defaultBrowser f) 100;
         PromiseThen (app_restored app) (OnRestored (app_commands app))
                     (Fresh (next s));
         PromiseAll [app_restored app;
                     model_restored H (widget_model H (defaultBrowser f))]
                    (Fresh (S (next s)));
         PromiseThen (Fresh (S (next s)))
                     (OnAllRestored app (defaultBrowser f))
                     (Fresh (S (S (next s)))) ].
Proof.
  destruct (activateBrowser_run H app f restorer s) as (evs & E & ->).
  apply events_of_appended in E. apply E.
Qed.

(** X1.  The browser is shown on a fresh session, and only then.
    [activateBrowser] itself executes no command; it hangs one continuation
    on [app.restored], which executes 'filebrowser:activate-main' on the
    application's registry when the restored layout is fresh and makes no
    call otherwise; the command it names is one [activateBrowser] has
    registered, and its body activates the default browser by its id. *)
Theorem X1_shown_on_fresh_session :
  forall (H : HostEnv) (app : JupyterLab) (f : FileBrowserFactory)
         (restorer : Ref) (s : State),
  let evs := events_of (activateBrowser H app f restorer) s in
  count is_execute evs = 0
  /\ (exists r, In (PromiseThen (app_restored app)
                                (OnRestored (app_commands app)) r) evs)
  /\ (forall H' is_fresh s',
        run H' (OnRestored (app_commands app)) (ALayout is_fresh) s'
        = (Ok VUndefined,
           if is_fresh
           then {| next := S (next s');
                   log := log s' ++ [Execute (app_commands app)
                                       "filebrowser:activate-main" None
                                       (Fresh (next s'))] |}
           else s'))
  /\ (exists opts,
        In ("filebrowser:activate-main", opts) (registered evs)
        /\ forall H' arg s',
            events_of (run H' (execute opts) arg) s'
            = [ActivateById (app_shell app)
                            (widget_id H' (defaultBrowser f))]).
Proof.
  intros H app f restorer s evs. subst evs.
  rewrite activateBrowser_events.
  split; [reflexivity|]. split; [eexists; find_in|]. split.
  - intros H' [|] [n l]; reflexivity.
  - eexists. split.
    + unfold registered. cbn. do 9 right. left. reflexivity.
    + intros H' arg [n l]. cbn [execute]. unfold run, execute_body.
      run_events. reflexivity.
Qed.

(** X2.  A launcher is created exactly when the main area is empty.  Once
    both [app.restored] and the default browser's [model.restored] have
    resolved, the continuation [activateBrowser] has hung on their
    [Promise.all] connects one slot to [shell.layoutModified] and then does
    what that slot does: it asks [shell.isEmpty('main')] and, if and only if
    the answer is yes, hangs the creation of a launcher on [model.restored].
    The model is the one the browser had when the session was restored.
    These are all the calls the continuation and the slot make, and both
    return [undefined]: neither has a [throw] of its own. *)
Theorem X2_launcher_when_main_area_is_empty :
  forall (H : HostEnv) (app : JupyterLab) (f : FileBrowserFactory)
         (restorer : Ref) (s : State),
  let browser := defaultBrowser f in
  let evs := events_of (activateBrowser H app f restorer) s in
  (exists all r,
      In (PromiseAll [app_restored app;
                      model_restored H (widget_model H browser)] all) evs
      /\ In (PromiseThen all (OnAllRestored app browser) r) evs)
  /\ forall (H' : HostEnv) (arg : Arg) (s' : State),
      let model := widget_model H' browser in
      let slot := OnLayoutModified app model browser in
      outcome_of (run H' (OnAllRestored app browser) arg) s' = Ok VUndefined
      /\ events_of (run H' (OnAllRestored app browser) arg) s'
         = SignalConnect (app_shell app) LayoutModified slot None
           :: events_of (run H' slot ANone) s'
      /\ forall (H'' : HostEnv) (arg' : Arg) (s'' : State),
          outcome_of (run H'' slot arg') s'' = Ok VUndefined
          /\ events_of (run H'' slot arg') s''
             = ShellIsEmpty (app_shell app) "main"
               :: (if shell_isEmpty H'' (app_shell app) "main"
                   then [PromiseThen (model_restored H'' model)
                           (MaybeCreateThen (app_commands app) browser)
                           (Fresh (next s''))]
                   else []).
Proof.
  intros H app f restorer s browser evs. subst evs browser. split.
  - rewrite activateBrowser_events. do 2 eexists. split.
    + right. apply in_or_app. right. find_in.
    + right. apply in_or_app. right. find_in.
  - intros H' arg [n l] model slot. subst slot. split; [|split].
    + unfold run, maybeCreate.
      destruct (shell_isEmpty H' (app_shell app) "main"); run_events;
        reflexivity.
    + unfold run, maybeCreate.
      destruct (shell_isEmpty H' (app_shell app) "main"); run_events;
        reflexivity.
    + intros H'' arg' [n' l']. unfold run, maybeCreate.
      destruct (shell_isEmpty H'' (app_shell app) "main"); run_events;
        split; reflexivity.
Qed.

(* ================================================================= *)
(** ** Launchers *)

(** X3.  A launcher follows the browser it was created for.
    [createLauncher] executes 'launcher:create' with [cwd] set to the
    current path of the browser's model and returns the promise of its
    continuation; the continuation connects one slot to the [pathChanged]
    signal of that same model, bound to the launcher, and resolves to the
    launcher; each time the slot runs it sets [launcher.cwd] to the path
    the model has at that time. *)
Theorem X3_launcher_follows_the_model :
  forall (H : HostEnv) (commands browser : Ref) (s : State),
  let model := widget_model H browser in
  createLauncher H commands browser s
  = (Ok (Fresh (S (next s))),
     {| next := S (S (next s));
        log := log s ++
          [ Execute commands "launcher:create"
                    (Some [("cwd", model_path H model)]) (Fresh (next s));
            PromiseThen (Fresh (next s)) (LauncherCreated model)
                        (Fresh (S (next s))) ] |})
  /\ forall (H' : HostEnv) (launcher : Ref) (s' : State),
      let slot := UpdateCwd (Some launcher) model in
      run H' (LauncherCreated model) (AObj launcher) s'
      = (Ok (VObj launcher),
         {| next := next s';
            log := log s' ++ [SignalConnect model PathChanged slot
                                            (Some launcher)] |})
      /\ forall (H'' : HostEnv) (arg : Arg) (s'' : State),
          run H'' slot arg s''
          = (Ok VUndefined,
             {| next := next s'';
                log := log s'' ++ [SetCwd launcher (model_path H'' model)] |}).
Proof.
  intros H commands browser [n l] model. split.
  - unfold createLauncher. run_monad. reflexivity.
  - intros H' launcher [n' l'] slot. split; [reflexivity|].
    intros H'' arg [n'' l'']. reflexivity.
Qed.

(** X4.  The launcher button of the default browser and the command
    'filebrowser:create-main-launcher' do the same thing.  The closure
    [activateFactory] gives to the toolbar button of the default browser
    and the execute body [activateBrowser] registers for the command run
    to the same result from the same state, whatever the host passes them:
    both create a launcher for the default browser through the
    application's registry. *)
Theorem X4_button_is_the_command :
  forall (H : HostEnv) (app : JupyterLab) (docManager : DocumentManager)
         (state restorer : Ref) (s : State) (node : Ref),
  hd_error (elementsByClassName H (Fresh (S (S (next s))))
                                "jp-DirListing-content") = Some node ->
  exists f button cls onClick opts,
    outcome_of (activateFactory H app docManager state) s = Ok f
    /\ In (NewToolbarButton cls onClick button)
          (events_of (activateFactory H app docManager state) s)
    /\ In (ToolbarInsertItem (defaultBrowser f) 0 "launch" button)
          (events_of (activateFactory H app docManager state) s)
    /\ (forall s1,
          In ("filebrowser:create-main-launcher", opts)
             (registered (events_of (activateBrowser H app f restorer) s1)))
    /\ forall (H' : HostEnv) (a a' : Arg) (s' : State),
        run H' onClick a s' = run H' (execute opts) a' s'
        /\ run H' onClick a s'
           = (r <- createLauncher H' (app_commands app) (defaultBrowser f) ;;
              ret (VObj r)) s'.
Proof.
  intros H app docManager state restorer s node Hnode.
  pose proof (createFileBrowser_run H app docManager state
                (Fresh (next s)) "filebrowser" None
                {| next := S (next s);
                   log := log s ++ [NewInstanceTracker namespace
                                      (Fresh (next s))] |}) as R.
  cbv zeta in R. cbn [next log] in R. rewrite Hnode in R.
  assert (E : activateFactory H app docManager state s
              = (Ok {| fb_createFileBrowser :=
                         createFileBrowser H app docManager state
                                           (Fresh (next s));
                       defaultBrowser := Fresh (S (S (next s)));
                       tracker := Fresh (next s) |},
                 {| next := S (S (S (S (next s))));
                    log := log s ++
                      NewInstanceTracker namespace (Fresh (next s))
                      :: createFileBrowser_prefix app docManager state
                           "filebrowser" empty_options (S (next s))
                      ++ createFileBrowser_suffix app docManager
                           (Fresh (next s)) node (S (next s)) |})).
  { unfold activateFactory. rewrite run_bind_call. cbv beta.
    unfold bind at 1. rewrite R. rewrite run_ret.
    rewrite <- app_assoc. reflexivity. }
  apply events_of_appended in E. destruct E as [Ee Eo].
  do 5 eexists. split; [exact Eo|]. rewrite Ee.
  split; [right; find_in|]. split; [right; find_in|].
  split.
  - intros s1. rewrite activateBrowser_events.
    unfold registered. cbn. do 12 right. left. reflexivity.
  - intros H' a a' s'. split; reflexivity.
Qed.

Lemma X4_button_is_the_command_witness :
  exists f,
    outcome_of (activateFactory example_host example_app example_docManager
                                (Host 6)) initial_state = Ok f
    /\ run example_host
           (LauncherOnClick (Host 1) (defaultBrowser f)) ANone initial_state
       = run example_host
             (CommandExecute CCreateLauncher example_app (tracker f)
                             (defaultBrowser f)) ANone initial_state.
Proof.
  destruct (X4_button_is_the_command example_host example_app
              example_docManager (Host 6) (Host 9) initial_state (Host 12)
              eq_refl)
    as (f & button & cls & onClick & opts & Eo & _ & _ & _ & Same).
  exists f. split; [exact Eo|].
  vm_compute in Eo. injection Eo as <-. reflexivity.
Defined.

(* ================================================================= *)
(** ** The context menu handler *)

Lemma contextmenu_run (H : HostEnv) (widget commands registry : Ref)
      (ev : MouseEvent) (s : State) :
  let path := str_or_empty (pathForClick H widget ev) in
  exists n,
    run H (ContextMenuListener widget commands registry) (AMouse ev) s
    = (Ok VUndefined,
       {| next := n;
          log := log s ++
            PreventDefault ev
            :: PathForClick widget ev
            :: events_of (createContextMenu H path commands registry) s
            ++ [MenuOpen (Fresh (next s)) (clientX ev) (clientY ev)] |}).
Proof.
  intros path.
  pose proof (createContextMenu_run H path commands registry s) as Rs.
  cbv zeta in Rs. apply events_of_appended in Rs. destruct Rs as [-> _].
  pose proof (createContextMenu_run H path commands registry
                {| next := next s;
                   log := (log s ++ [PreventDefault ev])
                          ++ [PathForClick widget ev] |}) as R.
  cbv zeta in R. cbn [next log] in R.
  eexists. unfold run. rewrite !run_bind_emit. cbv zeta. fold path.
  unfold bind at 1. cbn [next log]. rewrite R.
  rewrite run_bind_emit, run_ret. cbn [next log].
  repeat rewrite <- app_assoc. cbn [app]. reflexivity.
Qed.

(** X5.  A right click on the directory listing.  The handler
    [createFileBrowser] installs first prevents the default action, asks
    the widget for the path under the click, builds the context menu for
    that path (for the empty path when there is none) and, as its last
    call, opens that menu at the coordinates of the click; it never
    throws.  A click that hits no entry never gets an 'Open With...'
    submenu, whatever the registry prefers. *)
Theorem X5_right_click :
  forall (H : HostEnv) (widget commands registry : Ref) (ev : MouseEvent)
         (s : State),
  let body := run H (ContextMenuListener widget commands registry)
                  (AMouse ev) in
  let path := match pathForClick H widget ev with
              | Some p => p
              | None => ""
              end in
  let menu := Fresh (next s) in
  outcome_of body s = Ok VUndefined
  /\ events_of body s
     = PreventDefault ev
       :: PathForClick widget ev
       :: events_of (createContextMenu H path commands registry) s
       ++ [MenuOpen menu (clientX ev) (clientY ev)]
  /\ outcome_of (createContextMenu H path commands registry) s = Ok menu
  /\ (path = "" ->
      menu_items menu (events_of body s)
      = map (fun c => CommandItem c None)
            [ "filebrowser:open"; "filebrowser:rename";
              "filebrowser:delete"; "filebrowser:duplicate";
              "filebrowser:cut"; "filebrowser:copy"; "filebrowser:paste";
              "filebrowser:download"; "filebrowser:shutdown" ]).
Proof.
  intros H widget commands registry ev s body path menu.
  destruct (contextmenu_run H widget commands registry ev s) as (n & R).
  cbv zeta in R. rewrite str_or_empty_spec in R. fold path in R.
  apply events_of_appended in R. destruct R as [Ee Eo]. fold body in Ee, Eo.
  split; [exact Eo|]. split; [exact Ee|].
  pose proof (createContextMenu_run H path commands registry s) as C.
  cbv zeta in C. apply events_of_appended in C. destruct C as [Ce Co].
  split; [exact Co|].
  intros Epath. rewrite Ee, Ce. subst menu.
  assert (truthy_str path = false) as -> by (rewrite Epath; reflexivity).
  cbn [andb].
  change (PreventDefault ev :: PathForClick widget ev :: ?l)
    with ([PreventDefault ev; PathForClick widget ev] ++ l).
  assert (Tail : menu_items (Fresh (next s))
                   (map (fun c => MenuAddItem (Fresh (next s))
                                              (CommandItem c None))
                        context_tail)
                 = map (fun c => CommandItem c None) context_tail).
  { rewrite <- (map_map (fun c => CommandItem c None)
                        (MenuAddItem (Fresh (next s)))).
    rewrite menu_items_add, Ref_eqb_refl. reflexivity. }
  rewrite !menu_items_app, Tail.
  unfold menu_items. cbn [flat_map app]. rewrite !Ref_eqb_refl.
  reflexivity.
Qed.

Lemma X5_right_click_witness :
  menu_items (Fresh 0)
    (events_of (run example_host_bare
                    (ContextMenuListener (Fresh 2) (Host 1) (Host 5))
                    (AMouse {| clientX := 10; clientY := 20 |}))
               initial_state)
  = map (fun c => CommandItem c None)
        [ "filebrowser:open"; "filebrowser:rename"; "filebrowser:delete";
          "filebrowser:duplicate"; "filebrowser:cut"; "filebrowser:copy";
          "filebrowser:paste"; "filebrowser:download";
          "filebrowser:shutdown" ].
Proof.
  apply (X5_right_click example_host_bare (Fresh 2) (Host 1) (Host 5)
           {| clientX := 10; clientY := 20 |} initial_state).
  reflexivity.
Defined.

(* ================================================================= *)
(** ** Showing and hiding the default browser *)

(** X6.  Toggling never dispatches to a command that would do nothing.
    'filebrowser:toggle-main' executes exactly one command on the
    application's registry and returns its promise: 'activate-main' when
    the default browser is hidden, 'hide-main' when it is shown.  In the
    same host state the body of the command it picks makes exactly one
    call on the shell, whereas 'hide-main' on a hidden browser makes no
    call at all. *)
Theorem X6_toggle_dispatch :
  forall (H : HostEnv) (app : JupyterLab) (tracker browser : Ref)
         (arg : Arg) (s : State),
  let c := if isHidden H browser then CShowBrowser else CHideBrowser in
  run H (CommandExecute CToggleBrowser app tracker browser) arg s
  = (Ok (VObj (Fresh (next s))),
     {| next := S (next s);
        log := log s ++ [Execute (app_commands app) (command_id c) None
                                 (Fresh (next s))] |})
  /\ In (command_id c) (registered_ids app tracker browser)
  /\ (forall arg' s',
        run H (CommandExecute c app tracker browser) arg' s'
        = (Ok VUndefined,
           {| next := next s';
              log := log s' ++
                [if isHidden H browser
                 then ActivateById (app_shell app) (widget_id H browser)
                 else CollapseLeft (app_shell app)] |}))
  /\ (forall arg' s',
        isHidden H browser = true ->
        run H (CommandExecute CHideBrowser app tracker browser) arg' s'
        = (Ok VUndefined, s')).
Proof.
  intros H app tracker browser arg [n l] c. subst c.
  unfold run, execute_body.
  destruct (isHidden H browser); (split; [reflexivity|]);
    (split; [unfold registered_ids; cbn; tauto|]);
    (split; [intros arg' [n' l']; reflexivity|]);
    intros arg' [n' l'] E; [reflexivity|discriminate].
Qed.

Lemma X6_toggle_dispatch_witness :
  isHidden example_host_hidden (Host 8) = true
  /\ run example_host_hidden
         (CommandExecute CHideBrowser example_app (Host 7) (Host 8)) ANone
         initial_state
     = (Ok VUndefined, initial_state).
Proof.
  split; [reflexivity|].
  destruct (X6_toggle_dispatch example_host_hidden example_app (Host 7)
              (Host 8) ANone initial_state) as (_ & _ & _ & Hidden).
  apply Hidden. reflexivity.
Defined.

(* ================================================================= *)
(** ** No dangling command *)

Lemma context_menu_items (H : HostEnv) (path : string)
      (commands registry : Ref) (s : State) :
  let factories := map name (preferredWidgetFactories H registry path) in
  menu_items (Fresh (next s))
             (events_of (createContextMenu H path commands registry) s)
  = CommandItem CommandIDs.open None
    :: (if truthy_str path && (1 <? length factories)%nat
        then [SubmenuItem (Fresh (S (next s)))]
        else [])
    ++ map (fun c => CommandItem c None) context_tail.
Proof.
  intros factories.
  pose proof (createContextMenu_run H path commands registry s) as R.
  cbv zeta in R. fold factories in R.
  apply events_of_appended in R. destruct R as [-> _].
  assert (Nmo : Ref_eqb (Fresh (next s)) (Fresh (S (next s))) = false)
    by (apply Ref_eqb_Fresh_neq; lia).
  assert (Tail : menu_items (Fresh (next s))
                   (map (fun c => MenuAddItem (Fresh (next s))
                                              (CommandItem c None))
                        context_tail)
                 = map (fun c => CommandItem c None) context_tail).
  { rewrite <- (map_map (fun c => CommandItem c None)
                        (MenuAddItem (Fresh (next s)))).
    rewrite menu_items_add, Ref_eqb_refl. reflexivity. }
  rewrite !menu_items_app, Tail.
  destruct (truthy_str path && (1 <? length factories)%nat).
  - change (NewMenu commands (Fresh (S (next s)))
            :: SetTitleLabel (Fresh (S (next s))) "Open With..."
            :: ?l)
      with ([NewMenu commands (Fresh (S (next s)));
             SetTitleLabel (Fresh (S (next s))) "Open With..."] ++ l).
    rewrite !menu_items_app, menu_items_add, Nmo.
    unfold menu_items. cbn [flat_map app]. rewrite !Ref_eqb_refl.
    reflexivity.
  - unfold menu_items. cbn [flat_map app]. rewrite !Ref_eqb_refl.
    reflexivity.
Qed.

(** X7.  No dangling command.  [addCommands] registers thirteen pairwise
    different IDs, and every command of the 'filebrowser:' namespace that
    the extension refers to is among them: the items of the context menu,
    the items of the main menu, and the commands a command body or the
    continuation of [app.restored] executes. *)
Theorem X7_no_dangling_command :
  forall (H : HostEnv) (app : JupyterLab) (tracker browser : Ref),
  let ids := registered_ids app tracker browser in
  NoDup ids
  /\ length ids = 13
  /\ (forall path commands registry s,
        incl (own_commands
                (menu_items (Fresh (next s))
                   (events_of (createContextMenu H path commands registry)
                              s)))
             ids)
  /\ (forall s,
        incl (own_commands
                (menu_items (Fresh (next s)) (events_of (createMenu app) s)))
             ids)
  /\ (forall c arg s,
        Forall (fun e =>
                  match e with
                  | Execute _ cid _ _ =>
                      if String.prefix "filebrowser:" cid
                      then In cid ids else True
                  | _ => True
                  end)
               (events_of (run H (CommandExecute c app tracker browser) arg)
                          s))
  /\ (forall is_fresh s,
        Forall (fun e =>
                  match e with
                  | Execute _ cid _ _ => In cid ids
                  | _ => True
                  end)
               (events_of (run H (OnRestored (app_commands app))
                               (ALayout is_fresh)) s)).
Proof.
  intros H app tracker browser ids. subst ids.
  assert (Ids : registered_ids app tracker browser
                = [ "filebrowser:delete"; "filebrowser:copy";
                    "filebrowser:cut"; "filebrowser:download";
                    "filebrowser:duplicate"; "filebrowser:hide-main";
                    "filebrowser:open"; "filebrowser:paste";
                    "filebrowser:rename"; "filebrowser:activate-main";
                    "filebrowser:shutdown"; "filebrowser:toggle-main";
                    "filebrowser:create-main-launcher" ])
    by reflexivity.
  rewrite Ids. clear Ids.
  split; [|split; [reflexivity|split; [|split; [|split]]]].
  - repeat (constructor;
            [ cbn [In]; intros I;
              repeat (destruct I as [I|I]; [discriminate I|]); exact I | ]).
    constructor.
  - intros path commands registry s. rewrite context_menu_items.
    destruct (truthy_str path && _); intros c I; cbn in I;
      repeat (destruct I as [<-|I]; [find_in|]); contradiction.
  - intros s.
    destruct (events_of_appended _ _ _ _ _ (createMenu_run app s))
      as [-> _].
    unfold menu_items. cbn [flat_map List.app map]. rewrite !Ref_eqb_refl.
    intros c I. cbn in I.
    repeat (destruct I as [<-|I]; [find_in|]). contradiction.
  - intros c arg s.
    pose proof (open_body_run H app tracker browser s) as G. unfold run.
    assert (Fwd : forall m,
               Forall (fun e =>
                         match e with
                         | Execute _ cid _ _ =>
                             if String.prefix "filebrowser:" cid
                             then
                             In cid
                                [ "filebrowser:delete"; "filebrowser:copy";
                                  "filebrowser:cut"; "filebrowser:download";
                                  "filebrowser:duplicate";
                                  "filebrowser:hide-main";
                                  "filebrowser:open"; "filebrowser:paste";
                                  "filebrowser:rename";
                                  "filebrowser:activate-main";
                                  "filebrowser:shutdown";
                                  "filebrowser:toggle-main";
                                  "filebrowser:create-main-launcher" ]
                             else True
                         | _ => True
                         end)
                      (events_of (forward H tracker m) s)).
    { intros m. pose proof (forward_run H tracker m s) as R.
      destruct (currentWidget H tracker).
      - apply events_of_appended in R. destruct R as [-> _].
        repeat constructor.
      - unfold events_of. rewrite R. cbn [snd]. rewrite skipn_all.
        constructor. }
    destruct c; try apply Fwd.
    + unfold execute_body. destruct s as [n l].
      destruct (isHidden H browser); run_events; repeat constructor.
    + destruct (currentWidget H tracker) as [w|].
      * destruct G as (evs & n & R & F).
        apply events_of_appended in R. destruct R as [-> _].
        constructor; [exact I|].
        clear - F. induction F as [|item e items evs O _ IH];
          constructor; [|exact IH].
        destruct O as [(_ & ->)|(_ & r & ->)]; exact I.
      * unfold events_of. rewrite G. cbn [snd]. rewrite skipn_all.
        constructor.
    + unfold execute_body. destruct s as [n l]. run_events.
      repeat constructor.
    + unfold execute_body. destruct s as [n l].
      destruct (isHidden H browser); run_events;
        (constructor; [find_in | constructor]).
    + unfold execute_body, createLauncher. destruct s as [n l]. run_events.
      repeat constructor.
  - intros [|] [n l]; unfold run; run_events;
      [constructor; [find_in | constructor] | constructor].
Qed.

(* ================================================================= *)
(** ** More on the factory *)

(** X8.  A widget without a directory listing.  If the DOM of the new
    widget holds no 'jp-DirListing-content' element, [createFileBrowser]
    throws a [TypeError] after it has built the model, the widget and the
    toolbar button: no 'contextmenu' listener is installed and the widget
    is not added to the tracker.  [activateFactory] then throws as well,
    so no factory comes into being. *)
Theorem X8_no_listing_node :
  forall (H : HostEnv) (app : JupyterLab) (docManager : DocumentManager)
         (state : Ref),
  (forall (tracker : Ref) (wid : string) (options : option IOptions)
          (s : State),
     hd_error (elementsByClassName H (Fresh (S (next s)))
                                   "jp-DirListing-content") = None ->
     let c := createFileBrowser H app docManager state tracker wid options in
     outcome_of c s = Throw (TypeError "node is undefined")
     /\ count_new KFileBrowserModel (events_of c s) = 1
     /\ count_new KFileBrowser (events_of c s) = 1
     /\ In (ToolbarInsertItem (Fresh (S (next s))) 0 "launch"
                              (Fresh (S (S (next s))))) (events_of c s)
     /\ count is_listener (events_of c s) = 0
     /\ count is_tracker_add (events_of c s) = 0)
  /\ (forall (s : State),
        hd_error (elementsByClassName H (Fresh (S (S (next s))))
                                      "jp-DirListing-content") = None ->
        outcome_of (activateFactory H app docManager state) s
        = Throw (TypeError "node is undefined")).
Proof.
  intros H app docManager state. split.
  - intros tracker wid options s Hnode c.
    pose proof (createFileBrowser_run H app docManager state tracker wid
                  options s) as R.
    cbv zeta in R. rewrite Hnode in R.
    rewrite <- (app_nil_r (createFileBrowser_prefix _ _ _ _ _ _)) in R.
    apply events_of_appended in R. destruct R as [Ee Eo].
    fold c in Ee, Eo. rewrite Ee, app_nil_r.
    split; [exact Eo|]. repeat split. find_in.
  - intros s Hnode.
    pose proof (createFileBrowser_run H app docManager state
                  (Fresh (next s)) "filebrowser" None
                  {| next := S (next s);
                     log := log s ++ [NewInstanceTracker namespace
                                        (Fresh (next s))] |}) as R.
    cbv zeta in R. cbn [next log] in R. rewrite Hnode in R.
    unfold outcome_of, activateFactory. rewrite run_bind_call. cbv beta.
    unfold bind at 1. rewrite R. reflexivity.
Qed.

Lemma X8_no_listing_node_witness :
  outcome_of (createFileBrowser example_host_bare example_app
                example_docManager (Host 6) (Host 7) "other" None)
             initial_state
  = Throw (TypeError "node is undefined")
  /\ outcome_of (activateFactory example_host_bare example_app
                   example_docManager (Host 6)) initial_state
     = Throw (TypeError "node is undefined").
Proof.
  destruct (X8_no_listing_node example_host_bare example_app
              example_docManager (Host 6)) as [Create Activate].
  split.
  - apply (Create (Host 7) "other" None initial_state eq_refl).
  - apply (Activate initial_state eq_refl).
Defined.

Lemma create_two_run (H : HostEnv) (app : JupyterLab)
      (docManager : DocumentManager) (state tracker : Ref)
      (id1 : string) (o1 : option IOptions)
      (id2 : string) (o2 : option IOptions) (s : State) (n1 n2 : Ref) :
  hd_error (elementsByClassName H (Fresh (S (next s)))
                                "jp-DirListing-content") = Some n1 ->
  hd_error (elementsByClassName H (Fresh (S (S (S (S (next s))))))
                                "jp-DirListing-content") = Some n2 ->
  create_two H app docManager state tracker id1 o1 id2 o2 s
  = (Ok (Fresh (S (next s)), Fresh (S (S (S (S (next s)))))),
     {| next := S (S (S (S (S (S (next s))))));
        log := log s ++
          (createFileBrowser_prefix app docManager state id1
             (options_or_default o1) (next s)
           ++ createFileBrowser_suffix app docManager tracker n1 (next s))
          ++ createFileBrowser_prefix app docManager state id2
               (options_or_default o2) (S (S (S (next s))))
          ++ createFileBrowser_suffix app docManager tracker n2
               (S (S (S (next s)))) |}).
Proof.
  intros N1 N2.
  pose proof (createFileBrowser_run H app docManager state tracker id1 o1 s)
    as R1.
  cbv zeta in R1. rewrite N1 in R1.
  unfold create_two. unfold bind at 1. rewrite R1. cbv beta.
  pose proof (createFileBrowser_run H app docManager state tracker id2 o2
                {| next := S (S (S (next s)));
                   log := log s ++
                     createFileBrowser_prefix app docManager state id1
                       (options_or_default o1) (next s)
                     ++ createFileBrowser_suffix app docManager tracker n1
                          (next s) |}) as R2.
  cbv zeta in R2. cbn [next log] in R2. rewrite N2 in R2.
  unfold bind at 1. rewrite R2. rewrite run_ret.
  rewrite <- !app_assoc. reflexivity.
Qed.

(** X9.  One factory, many browsers.  Two calls of [createFileBrowser] in
    a row give two different widgets on two different models, each with
    its own toolbar button, and add both to the same tracker, first the
    first; the factory does not compare ids, so this holds also when both
    calls pass the same id. *)
Theorem X9_two_browsers :
  forall (H : HostEnv) (app : JupyterLab) (docManager : DocumentManager)
         (state tracker : Ref) (id1 : string) (o1 : option IOptions)
         (id2 : string) (o2 : option IOptions) (s : State) (n1 n2 : Ref),
  hd_error (elementsByClassName H (Fresh (S (next s)))
                                "jp-DirListing-content") = Some n1 ->
  hd_error (elementsByClassName H (Fresh (S (S (S (S (next s))))))
                                "jp-DirListing-content") = Some n2 ->
  let c := create_two H app docManager state tracker id1 o1 id2 o2 in
  exists w1 w2 m1 m2 c1 c2,
    outcome_of c s = Ok (w1, w2)
    /\ w1 <> w2
    /\ m1 <> m2
    /\ In (NewFileBrowser id1 m1 c1 w1) (events_of c s)
    /\ In (NewFileBrowser id2 m2 c2 w2) (events_of c s)
    /\ count_new KFileBrowser (events_of c s) = 2
    /\ filter is_tracker_add (events_of c s)
       = [TrackerAdd tracker w1; TrackerAdd tracker w2].
Proof.
  intros H app docManager state tracker id1 o1 id2 o2 s n1 n2 N1 N2 c.
  pose proof (create_two_run H app docManager state tracker id1 o1 id2 o2
                s n1 n2 N1 N2) as R.
  apply events_of_appended in R. destruct R as [Ee Eo]. fold c in Ee, Eo.
  do 6 eexists. split; [exact Eo|]. rewrite Ee.
  split; [intros [= E]; lia|]. split; [|repeat split; find_in].
  intros [= E]. lia.
Qed.

Lemma X9_two_browsers_witness :
  outcome_of (create_two example_host example_app example_docManager
                (Host 6) (Host 7) "same" None "same" None) initial_state
  = Ok (Fresh 1, Fresh 4).
Proof.
  destruct (X9_two_browsers example_host example_app example_docManager
              (Host 6) (Host 7) "same" None "same" None initial_state
              (Host 12) (Host 12) eq_refl eq_refl)
    as (w1 & w2 & m1 & m2 & c1 & c2 & Eo & _).
  rewrite Eo. vm_compute in Eo. injection Eo as <- <-. reflexivity.
Defined.

Lemma supplied_registries (app : JupyterLab) (docManager : DocumentManager)
      (state restorer : Ref) (e : Event) :
  supplied app docManager state restorer None e ->
  Forall (fun r => r = app_commands app) (registries_used e).
Proof.
  intros [_ F]. unfold registries_used.
  induction F as [|[k r] us I _ IH]; cbn [flat_map]; [constructor|].
  destruct k; cbn [List.app]; try exact IH.
  constructor; [|exact IH].
  destruct I as [E|(o & E & _)]; [exact E|discriminate].
Qed.

(** X10.  A registry of one's own reaches the widget only.  When
    [options.commands] is given, the new [FileBrowser] widget is built on
    it, but the launcher button and the context menu handler of that
    widget keep the application's registry: every command they execute
    and every menu they build goes through [app.commands]. *)
Theorem X10_custom_registry :
  forall (H : HostEnv) (app : JupyterLab) (docManager : DocumentManager)
         (state tracker : Ref) (wid : string) (o : IOptions) (custom : Ref)
         (s : State) (node : Ref),
  opt_commands o = Some custom ->
  hd_error (elementsByClassName H (Fresh (S (next s)))
                                "jp-DirListing-content") = Some node ->
  let evs := events_of (createFileBrowser H app docManager state tracker wid
                          (Some o)) s in
  exists model widget button onClick listener,
    In (NewFileBrowser wid model custom widget) evs
    /\ In (NewToolbarButton "jp-AddIcon" onClick button) evs
    /\ In (AddEventListener node "contextmenu" listener) evs
    /\ forall (H' : HostEnv) (arg : Arg) (s' : State),
        Forall (fun e => Forall (fun r => r = app_commands app)
                                (registries_used e))
               (events_of (run H' onClick arg) s')
        /\ Forall (fun e => Forall (fun r => r = app_commands app)
                                   (registries_used e))
                  (events_of (run H' listener arg) s').
Proof.
  intros H app docManager state tracker wid o custom s node Ho Hnode evs.
  pose proof (createFileBrowser_run H app docManager state tracker wid
                (Some o) s) as R.
  cbv zeta in R. rewrite Hnode in R.
  apply events_of_appended in R. destruct R as [Ee _]. subst evs.
  rewrite Ee. unfold createFileBrowser_prefix, createFileBrowser_suffix.
  cbn [options_or_default]. rewrite Ho. cbn [obj_or List.app].
  do 5 eexists. split; [find_in|]. split; [find_in|]. split; [find_in|].
  intros H' arg s'. split.
  - eapply Forall_impl; [apply supplied_registries|].
    apply appends_events_of.
    apply (run_supplied H' app docManager state (Host 0)).
    repeat constructor.
  - eapply Forall_impl; [apply supplied_registries|].
    apply appends_events_of.
    apply (run_supplied H' app docManager state (Host 0)).
    repeat constructor.
Qed.

Lemma X10_custom_registry_witness :
  In (NewFileBrowser "other" (Fresh 0) (Host 30) (Fresh 1))
     (events_of (createFileBrowser example_host example_app
                   example_docManager (Host 6) (Host 7) "other"
                   (Some {| opt_commands := Some (Host 30);
                            opt_driveName := None;
                            opt_state := Absent |})) initial_state)
  /\ events_of (run example_host (LauncherOnClick (Host 1) (Fresh 1)) ANone)
               initial_state
     = [ Execute (Host 1) "launcher:create" (Some [("cwd", "notebooks")])
                 (Fresh 0);
         PromiseThen (Fresh 0) (LauncherCreated (Host 10)) (Fresh 1) ].
Proof.
  destruct (X10_custom_registry example_host example_app example_docManager
              (Host 6) (Host 7) "other"
              {| opt_commands := Some (Host 30);
                 opt_driveName := None;
                 opt_state := Absent |}
              (Host 30) initial_state (Host 12) eq_refl eq_refl)
    as (model & widget & button & onClick & listener & _).
  split; [find_in | reflexivity].
Defined.

(* ================================================================= *)
(** ** Opening the selection *)

Lemma opens_counts (H : HostEnv) (commands w : Ref) (items : list Item)
      (evs : list Event) :
  Forall2 (opens H commands w) items evs ->
  count is_cd evs = length (filter is_directory items)
  /\ count is_execute evs
     = length (filter (fun i => negb (is_directory i)) items)
  /\ length evs = length items.
Proof.
  unfold count.
  induction 1 as [|item e items evs O _ (IH1 & IH2 & IH3)];
    [repeat split|].
  assert (D : is_directory item = true /\ is_cd e = true
                                  /\ is_execute e = false
              \/ is_directory item = false /\ is_cd e = false
                                     /\ is_execute e = true).
  { unfold is_directory.
    destruct O as [(E & ->)|(N & r & ->)].
    - left. rewrite E. repeat split.
    - right. apply String.eqb_neq in N. rewrite N. repeat split. }
  cbn [filter].
  destruct D as [(-> & -> & ->)|(-> & -> & ->)]; cbn [negb length];
    rewrite IH1, IH2, IH3; repeat split.
Qed.

(** X11.  'filebrowser:open' treats every selected item once.  With a
    current widget, the command asks it for the selected items and then
    makes exactly one call per item: it changes directory as many times as
    directories are selected and executes as many commands as other items
    are selected; when nothing is selected the query is its only call; it
    always returns [undefined]. *)
Theorem X11_open_selection :
  forall (H : HostEnv) (app : JupyterLab) (tracker browser w : Ref)
         (arg : Arg) (s : State),
  currentWidget H tracker = Some w ->
  let body := run H (CommandExecute COpen app tracker browser) arg in
  let items := selectedItems H w in
  outcome_of body s = Ok VUndefined
  /\ hd_error (events_of body s)
     = Some (WidgetCall w MSelectedItems (Fresh (next s)))
  /\ length (events_of body s) = S (length items)
  /\ count is_cd (events_of body s) = length (filter is_directory items)
  /\ count is_execute (events_of body s)
     = length (filter (fun i => negb (is_directory i)) items)
  /\ (items = [] ->
      events_of body s = [WidgetCall w MSelectedItems (Fresh (next s))]).
Proof.
  intros H app tracker browser w arg s Cw body items.
  pose proof (open_body_run H app tracker browser s) as G.
  rewrite Cw in G. destruct G as (evs & n & R & F).
  change (execute_body H COpen app tracker browser) with body in R.
  apply events_of_appended in R. destruct R as [Ee Eo].
  fold items in F.
  destruct (opens_counts _ _ _ _ _ F) as (C1 & C2 & C3).
  split; [exact Eo|]. rewrite Ee.
  split; [reflexivity|]. split; [cbn [length]; congruence|].
  split; [exact C1|]. split; [exact C2|].
  intros E. rewrite E in C3. destruct evs; [reflexivity|discriminate].
Qed.

Lemma X11_open_selection_witness :
  currentWidget example_host_focused (Host 7) = Some (Host 20)
  /\ count is_cd
       (events_of (run example_host_focused
                       (CommandExecute COpen example_app (Host 7) (Host 8))
                       ANone) initial_state) = 1
  /\ count is_execute
       (events_of (run example_host_focused
                       (CommandExecute COpen example_app (Host 7) (Host 8))
                       ANone) initial_state) = 1.
Proof.
  split; [reflexivity|].
  destruct (X11_open_selection example_host_focused example_app (Host 7)
              (Host 8) (Host 20) ANone initial_state eq_refl)
    as (_ & _ & _ & Cd & Ex & _).
  split; [exact Cd | exact Ex].
Defined.

(* ================================================================= *)
(** ** Promise chaining and the launcher *)







